(** * Doodle Hoops speedrun recorder: session controller and local detector

    A shallow embedding of the recorder's TypeScript sources:

    - [Types]: the shared type declarations ([RecorderState],
      [DetectionMode], [AnalysisResult], [AttemptRecord]);
    - [LocalDetection]: the pixel-signature classifier
      [analyzeGameFrameLocally];
    - [Recorder]: the React component's controller functions
      ([startCapture], [stopSession], [runAnalysisLoop], [performAnalysis],
      [handleGameOver], ...), as an event-driven transition system.

    JavaScript numbers that hold integers (pixel channels, counters, row
    and column indices, delays in milliseconds, scores) are kept in [Z]:
    every such value stays far below 2^53, where binary64 arithmetic on
    integers is exact.  The four places where the source computes a number
    that is not an integer ([Math.sqrt], [y / height], [scanWidth * 0.4],
    [height * 0.02]) are evaluated in binary64 itself, with Rocq's
    primitive floats. *)

From Stdlib Require Import ZArith List Bool Lia String Ascii.
From Stdlib Require Import Strings.Byte.
From Stdlib Require Import Floats.PrimFloat Numbers.Cyclic.Int63.Uint63.
Import ListNotations.

Set Warnings "-inexact-float".
Set Implicit Arguments.
Open Scope Z_scope.

(* ================================================================= *)
(** ** Shared helpers *)

(** The binary64 value of an integer-valued JavaScript number. *)
Definition num (z : Z) : float := PrimFloat.of_uint63 (Uint63.of_Z z).

(** [0; 1; ...; n-1], the index values of [for (let i = 0; i < n; i++)]. *)
Definition range (n : Z) : list Z := map Z.of_nat (seq 0 (Z.to_nat n)).

(** [for (let i = 0; i < n; i++) s = body i s]. *)
Definition for_range {S : Type} (n : Z) (body : Z -> S -> S) (s : S) : S :=
  fold_left (fun acc i => body i acc) (range n) s.

(** Number of elements of [l] that satisfy [p]. *)
Definition count {A : Type} (p : A -> bool) (l : list A) : Z :=
  Z.of_nat (List.length (filter p l)).

(** Bounded universal check of a boolean predicate on [z, z+1, ..., z+n-1]. *)
Fixpoint allb (f : Z -> bool) (n : nat) (z : Z) : bool :=
  match n with
  | O => true
  | S n' => f z && allb f n' (z + 1)
  end.

(* ================================================================= *)
(** ** types.ts *)

Module Types.

Inductive Status : Type :=
| saved
| discarded
| error
| manual_review.

Inductive RecorderState : Type :=
| IDLE
| MONITORING
| RECORDING
| ANALYZING
| WAITING_FOR_START.

Inductive DetectionMode : Type :=
| GEMINI
| LOCAL.

(** A [Blob]: its bytes. *)
Definition Blob : Type := list byte.

Record AnalysisResult : Type := mkAnalysisResult {
  isGameOver : bool;
  score : option Z;          (* number | null *)
  confidence : float
}.

Record AttemptRecord : Type := mkAttemptRecord {
  id : string;
  timestamp : Z;
  rec_score : option Z;      (* score: number | null *)
  status : Status;
  videoBlob : option Blob;   (* videoBlob?: Blob *)
  thumbnail : option string  (* thumbnail?: string *)
}.

Definition RecorderState_eqb (a b : RecorderState) : bool :=
  match a, b with
  | IDLE, IDLE | MONITORING, MONITORING | RECORDING, RECORDING
  | ANALYZING, ANALYZING | WAITING_FOR_START, WAITING_FOR_START => true
  | _, _ => false
  end.

Definition DetectionMode_eqb (a b : DetectionMode) : bool :=
  match a, b with
  | GEMINI, GEMINI | LOCAL, LOCAL => true
  | _, _ => false
  end.

Definition Status_eqb (a b : Status) : bool :=
  match a, b with
  | saved, saved | discarded, discarded | error, error
  | manual_review, manual_review => true
  | _, _ => false
  end.

End Types.
Export Types.

(* ================================================================= *)
(** ** services/localDetectionService.ts *)

Module LocalDetection.

Record RGB : Type := mkRGB { r_ : Z; g_ : Z; b_ : Z }.

Definition TARGET_BLUE : RGB := mkRGB 66 133 244.
Definition TARGET_GREEN : RGB := mkRGB 52 168 83.
Definition COLOR_TOLERANCE : float := 70%float.

(** [ImageData.data]: a [Uint8ClampedArray], four bytes per pixel. *)
Definition ImageData : Type := list byte.

(** [frameData[index]]: the byte as a number, [None] for [undefined]
    (an index past the end of the array). *)
Definition at_index (frameData : ImageData) (index : Z) : option Z :=
  if index <? 0 then None
  else option_map (fun b => Z.of_N (Byte.to_N b))
                  (nth_error frameData (Z.to_nat index)).

(** [colorMatch]: Euclidean distance to [target] below the tolerance.  An
    [undefined] channel makes the distance [NaN], and [NaN < 70] is false. *)
Definition colorMatch (r g b : option Z) (target : RGB) : bool :=
  match r, g, b with
  | Some r, Some g, Some b =>
      let distance :=
        PrimFloat.sqrt
          (num ((r - r_ target) ^ 2 + (g - g_ target) ^ 2 + (b - b_ target) ^ 2)) in
      PrimFloat.ltb distance COLOR_TOLERANCE
  | _, _, _ => false
  end.

(** [undefined > 220] is false. *)
Definition gt220 (c : option Z) : bool :=
  match c with
  | Some c => 220 <? c
  | None => false
  end.

Definition isWhiteish (r g b : option Z) : bool :=
  gt220 r && gt220 g && gt220 b.

(** What [ctx.getImageData(sx, sy, sw, sh)] does: it returns the pixel
    data or throws (canvas not ready, tainted, empty rectangle). *)
Inductive Outcome (A : Type) : Type :=
| Returns (a : A)
| Throws (message : option string).
Arguments Returns {A} a.
Arguments Throws {A} message.

Record CanvasRenderingContext2D : Type := mkCtx {
  getImageData : Z -> Z -> Z -> Z -> Outcome ImageData
}.

Definition scanWidth : Z := 20.

(** The three counters of a loop: blue, green, white. *)
Record Tally : Type := mkTally { blue : Z; green : Z; white : Z }.

(** Body of the inner loop, one pixel of row [y]. *)
Definition scanPixel (frameData : ImageData) (y x : Z) (row : Tally) : Tally :=
  let index := (y * scanWidth + x) * 4 in
  let r := at_index frameData index in
  let g := at_index frameData (index + 1) in
  let b := at_index frameData (index + 2) in
  mkTally
    (if colorMatch r g b TARGET_BLUE then blue row + 1 else blue row)
    (if colorMatch r g b TARGET_GREEN then green row + 1 else green row)
    (if isWhiteish r g b then white row + 1 else white row).

(** Body of the outer loop, row [y]. *)
Definition scanRow (frameData : ImageData) (height : Z) (y : Z) (rows : Tally)
  : Tally :=
  let row := for_range scanWidth (scanPixel frameData y) (mkTally 0 0 0) in
  let yPercent := PrimFloat.div (num y) (num height) in
  let threshold := PrimFloat.mul (num scanWidth) 0.4%float in
  mkTally
    (if PrimFloat.ltb yPercent 0.40%float
        && PrimFloat.ltb threshold (num (blue row))
     then blue rows + 1 else blue rows)
    (if PrimFloat.ltb 0.30%float yPercent && PrimFloat.ltb yPercent 0.70%float
        && PrimFloat.ltb threshold (num (green row))
     then green rows + 1 else green rows)
    (if PrimFloat.ltb 0.50%float yPercent && PrimFloat.ltb yPercent 0.85%float
        && PrimFloat.ltb threshold (num (white row))
     then white rows + 1 else white rows).

(** The decision taken once the strip has been read. *)
Definition classifyFrame (frameData : ImageData) (height : Z) : AnalysisResult :=
  let rows := for_range height (scanRow frameData height) (mkTally 0 0 0) in
  let hasRibbon := PrimFloat.ltb (PrimFloat.mul (num height) 0.02%float) (num (blue rows)) in
  let hasButton := PrimFloat.ltb (PrimFloat.mul (num height) 0.02%float) (num (green rows)) in
  let hasUrlBox := PrimFloat.ltb (PrimFloat.mul (num height) 0.02%float) (num (white rows)) in
  let isGameOver := hasRibbon && (hasButton || hasUrlBox) in
  mkAnalysisResult isGameOver None (if isGameOver then 1.0%float else 0.0%float).

(** [analyzeGameFrameLocally(ctx, width, height)]: the [try] block reads
    the centre strip and classifies it; the [catch] block answers any
    exception with the negative result. *)
Definition analyzeGameFrameLocally
  (ctx : CanvasRenderingContext2D) (width height : Z) : AnalysisResult :=
  let centerX := width / 2 in
  let startX := Z.max 0 (centerX - scanWidth / 2) in
  match getImageData ctx startX 0 scanWidth height with
  | Returns frameData => classifyFrame frameData height
  | Throws _ => mkAnalysisResult false None 0%float
  end.

(** *** The detector as the specification words it

    Exact integer arithmetic: percentages are compared by cross
    multiplication, the Euclidean distance by its square. *)

Definition spec_pixel (frameData : ImageData) (y x : Z)
  : option Z * option Z * option Z :=
  let index := (y * 20 + x) * 4 in
  (at_index frameData index, at_index frameData (index + 1),
   at_index frameData (index + 2)).

Definition spec_near (target : RGB) (p : option Z * option Z * option Z) : bool :=
  match p with
  | (Some r, Some g, Some b) =>
      (r - r_ target) ^ 2 + (g - g_ target) ^ 2 + (b - b_ target) ^ 2 <? 70 ^ 2
  | _ => false
  end.

Definition spec_white (p : option Z * option Z * option Z) : bool :=
  match p with
  | (Some r, Some g, Some b) => (220 <? r) && (220 <? g) && (220 <? b)
  | _ => false
  end.

(** More than 40% of the 20 pixels of row [y] satisfy [p]. *)
Definition spec_row_matches (p : option Z * option Z * option Z -> bool)
  (frameData : ImageData) (y : Z) : bool :=
  40 * 20 <? 100 * count (fun x => p (spec_pixel frameData y x)) (range 20).

Definition spec_blue_row (frameData : ImageData) (height y : Z) : bool :=
  (100 * y <? 40 * height) && spec_row_matches (spec_near TARGET_BLUE) frameData y.

Definition spec_green_row (frameData : ImageData) (height y : Z) : bool :=
  (30 * height <? 100 * y) && (100 * y <? 70 * height)
  && spec_row_matches (spec_near TARGET_GREEN) frameData y.

Definition spec_white_row (frameData : ImageData) (height y : Z) : bool :=
  (50 * height <? 100 * y) && (100 * y <? 85 * height)
  && spec_row_matches spec_white frameData y.

(** A row count exceeds 2% of the frame height. *)
Definition spec_exceeds (height rows : Z) : bool := 2 * height <? 100 * rows.

Definition spec_hasRibbon (frameData : ImageData) (height : Z) : bool :=
  spec_exceeds height (count (spec_blue_row frameData height) (range height)).

Definition spec_hasButton (frameData : ImageData) (height : Z) : bool :=
  spec_exceeds height (count (spec_green_row frameData height) (range height)).

Definition spec_hasUrlBox (frameData : ImageData) (height : Z) : bool :=
  spec_exceeds height (count (spec_white_row frameData height) (range height)).

Definition spec_isGameOver (frameData : ImageData) (height : Z) : bool :=
  spec_hasRibbon frameData height
  && (spec_hasButton frameData height || spec_hasUrlBox frameData height).

(** No pixel of the strip is within the tolerance of the ribbon blue. *)
Definition no_blue_signature (frameData : ImageData) (height : Z) : Prop :=
  forall y x, 0 <= y < height -> 0 <= x < 20 ->
    spec_near TARGET_BLUE (spec_pixel frameData y x) = false.

End LocalDetection.

(* ================================================================= *)
(** ** services/geminiService.ts: the image handed to the remote service *)

Module GeminiService.

(** [s.split(sep)] for a one-character separator: the pieces between the
    separators, at least one. *)
Fixpoint split (sep : ascii) (s : string) : list string :=
  match s with
  | EmptyString => [EmptyString]
  | String a rest =>
      if Ascii.eqb a sep then EmptyString :: split sep rest
      else match split sep rest with
           | piece :: pieces => String a piece :: pieces
           | [] => [String a EmptyString]
           end
  end.

(** [base64Image.split(',')[1] || base64Image]: the second piece, unless
    it is missing or empty. *)
Definition cleanBase64 (base64Image : string) : string :=
  match nth_error (split "," base64Image) 1 with
  | Some piece => if (piece =? "")%string then base64Image else piece
  | None => base64Image
  end.

(** The character [a] does not occur in [s]. *)
Fixpoint without (a : ascii) (s : string) : Prop :=
  match s with
  | EmptyString => True
  | String b rest => b <> a /\ without a rest
  end.

End GeminiService.

(* ================================================================= *)
(** ** components/Recorder.tsx *)

Module Recorder.
Import LocalDetection.

Definition TARGET_SCORE : Z := 45.
Definition BASE_INTERVAL_MS : Z := 4000.
Definition LOCAL_INTERVAL_MS : Z := 1000.
Definition ERROR_BACKOFF_MS : Z := 10000.

(** [MediaRecorder.state]; the component never pauses a recorder. *)
Inductive MediaRecorderState : Type :=
| inactive
| recording.

Record MediaStream : Type := mkMediaStream { active : bool }.

(** The arguments [handleGameOver] was called with; kept while its
    [await stopMediaRecorder()] waits for the recorder's stop event. *)
Definition PendingGameOver : Type := (option Z * string)%type.

(** The component's React state and refs. *)
Record Component : Type := mkComponent {
  stream : option MediaStream;
  recorderState : RecorderState;
  lastAnalysis : option (bool * option Z);
  error_ : option string;
  isRateLimited : bool;
  mode : DetectionMode;
  stateRef : RecorderState;
  mediaRecorderRef : option MediaRecorderState;
  chunksRef : list Blob;
  timeoutRef : option Z;          (* the last timer handle, with its delay *)
  streamRef : option MediaStream;
  stopping : list PendingGameOver (* onstop handlers not fired yet, oldest first *)
}.

Definition set_stream v (c : Component) : Component :=
  mkComponent v (recorderState c) (lastAnalysis c) (error_ c) (isRateLimited c)
    (mode c) (stateRef c) (mediaRecorderRef c) (chunksRef c) (timeoutRef c)
    (streamRef c) (stopping c).
Definition set_recorderState v (c : Component) : Component :=
  mkComponent (stream c) v (lastAnalysis c) (error_ c) (isRateLimited c)
    (mode c) (stateRef c) (mediaRecorderRef c) (chunksRef c) (timeoutRef c)
    (streamRef c) (stopping c).
Definition set_lastAnalysis v (c : Component) : Component :=
  mkComponent (stream c) (recorderState c) v (error_ c) (isRateLimited c)
    (mode c) (stateRef c) (mediaRecorderRef c) (chunksRef c) (timeoutRef c)
    (streamRef c) (stopping c).
Definition set_error v (c : Component) : Component :=
  mkComponent (stream c) (recorderState c) (lastAnalysis c) v (isRateLimited c)
    (mode c) (stateRef c) (mediaRecorderRef c) (chunksRef c) (timeoutRef c)
    (streamRef c) (stopping c).
Definition set_isRateLimited v (c : Component) : Component :=
  mkComponent (stream c) (recorderState c) (lastAnalysis c) (error_ c) v
    (mode c) (stateRef c) (mediaRecorderRef c) (chunksRef c) (timeoutRef c)
    (streamRef c) (stopping c).
Definition set_mode v (c : Component) : Component :=
  mkComponent (stream c) (recorderState c) (lastAnalysis c) (error_ c)
    (isRateLimited c) v (stateRef c) (mediaRecorderRef c) (chunksRef c)
    (timeoutRef c) (streamRef c) (stopping c).
Definition set_stateRef v (c : Component) : Component :=
  mkComponent (stream c) (recorderState c) (lastAnalysis c) (error_ c)
    (isRateLimited c) (mode c) v (mediaRecorderRef c) (chunksRef c)
    (timeoutRef c) (streamRef c) (stopping c).
Definition set_mediaRecorderRef v (c : Component) : Component :=
  mkComponent (stream c) (recorderState c) (lastAnalysis c) (error_ c)
    (isRateLimited c) (mode c) (stateRef c) v (chunksRef c) (timeoutRef c)
    (streamRef c) (stopping c).
Definition set_chunksRef v (c : Component) : Component :=
  mkComponent (stream c) (recorderState c) (lastAnalysis c) (error_ c)
    (isRateLimited c) (mode c) (stateRef c) (mediaRecorderRef c) v
    (timeoutRef c) (streamRef c) (stopping c).
Definition set_timeoutRef v (c : Component) : Component :=
  mkComponent (stream c) (recorderState c) (lastAnalysis c) (error_ c)
    (isRateLimited c) (mode c) (stateRef c) (mediaRecorderRef c) (chunksRef c)
    v (streamRef c) (stopping c).
Definition set_streamRef v (c : Component) : Component :=
  mkComponent (stream c) (recorderState c) (lastAnalysis c) (error_ c)
    (isRateLimited c) (mode c) (stateRef c) (mediaRecorderRef c) (chunksRef c)
    (timeoutRef c) v (stopping c).
Definition set_stopping v (c : Component) : Component :=
  mkComponent (stream c) (recorderState c) (lastAnalysis c) (error_ c)
    (isRateLimited c) (mode c) (stateRef c) (mediaRecorderRef c) (chunksRef c)
    (timeoutRef c) (streamRef c) v.

(** The component as first rendered, in detection mode [m]. *)
Definition initial (m : DetectionMode) : Component :=
  mkComponent None IDLE None None false m IDLE None [] None None [].

(** What the component does to the outside world, in order. *)
Inductive Effect : Type :=
| SetTimeout (delay : Z)               (* window.setTimeout(runAnalysisLoop, delay) *)
| ClearTimeout                         (* clearTimeout(timeoutRef.current) *)
| RecorderStart                        (* new MediaRecorder(...); recorder.start(1000) *)
| RecorderStop                         (* mediaRecorderRef.current.stop() *)
| TracksStop                           (* stream.getTracks().forEach(track => track.stop()) *)
| DrawImage                            (* ctx.drawImage(video, 0, 0, 640, 360) *)
| RemoteRequest (base64Image : string) (* analyzeGameFrame(base64Image) *)
| LocalAnalysis (result : AnalysisResult) (* analyzeGameFrameLocally(ctx, 640, 360) *)
| LogEntry (record : AttemptRecord)    (* onLogEntry(record) *)
| ConsoleLog
| ConsoleWarn
| ConsoleError.

(** What a handler reads from the page while it runs. *)
Record Env : Type := mkEnv {
  document_hidden : bool;
  videoRef_current : bool;             (* the video element is mounted *)
  canvasRef_current : bool;            (* the canvas element is mounted *)
  getContext_2d : option CanvasRenderingContext2D;
  toDataURL : string;                  (* canvas.toDataURL('image/png') *)
  Date_now : Z;
  Math_random_id : string              (* Math.random().toString(36).substr(2, 9) *)
}.

(** A handler: it reads and updates the component and lists its effects. *)
Definition Action (A : Type) : Type := Component -> A * Component * list Effect.

Definition ret {A : Type} (a : A) : Action A := fun c => (a, c, []).

Definition bind {A B : Type} (m : Action A) (f : A -> Action B) : Action B :=
  fun c =>
    let r1 := m c in
    let r2 := f (fst (fst r1)) (snd (fst r1)) in
    (fst (fst r2), snd (fst r2), snd r1 ++ snd r2).

Definition get : Action Component := fun c => (c, c, []).
Definition modify (f : Component -> Component) : Action unit := fun c => (tt, f c, []).
Definition emit (e : Effect) : Action unit := fun c => (tt, c, [e]).
Definition when (b : bool) (m : Action unit) : Action unit := if b then m else ret tt.

Declare Scope action_scope.
Delimit Scope action_scope with action.
Notation "x <- m ;; k" := (bind m (fun x => k))
  (at level 61, m at next level, right associativity) : action_scope.
Notation "m ;; k" := (bind m (fun _ => k))
  (at level 61, right associativity) : action_scope.
Open Scope action_scope.

Definition is_some {A : Type} (o : option A) : bool :=
  match o with Some _ => true | None => false end.

Definition is_recording (o : option MediaRecorderState) : bool :=
  match o with Some recording => true | _ => false end.

Definition updateState (newState : RecorderState) : Action unit :=
  modify (set_recorderState newState) ;;
  modify (set_stateRef newState).

Definition scheduleNextAnalysis (delay : Z) : Action unit :=
  c <- get ;;
  when (is_some (timeoutRef c)) (emit ClearTimeout) ;;
  modify (set_timeoutRef (Some delay)) ;;
  emit (SetTimeout delay).

(** How [navigator.mediaDevices.getDisplayMedia] settles. *)
Inductive DisplayMedia : Type :=
| Granted (mediaStream : MediaStream)
| NotAllowedError
| OtherFailure.

Definition startCapture (media : DisplayMedia) : Action unit :=
  modify (set_error None) ;;
  match media with
  | Granted mediaStream =>
      modify (set_stream (Some mediaStream)) ;;
      modify (set_streamRef (Some mediaStream)) ;;
      updateState MONITORING ;;
      c <- get ;;
      let interval :=
        if DetectionMode_eqb (mode c) LOCAL then LOCAL_INTERVAL_MS else 1000 in
      scheduleNextAnalysis interval
  | NotAllowedError =>
      emit ConsoleError ;;
      modify (set_error (Some "Permission denied. You must allow screen sharing."%string))
  | OtherFailure =>
      emit ConsoleError ;;
      modify (set_error (Some "Failed to initialize screen capture."%string))
  end.

Definition stopSession : Action unit :=
  c <- get ;;
  when (is_some (timeoutRef c)) (emit ClearTimeout) ;;
  when (is_recording (mediaRecorderRef c))
       (emit RecorderStop ;; modify (set_mediaRecorderRef (Some inactive))) ;;
  when (is_some (stream c)) (emit TracksStop) ;;
  modify (set_stream None) ;;
  modify (set_streamRef None) ;;
  updateState IDLE ;;
  modify (set_lastAnalysis None) ;;
  modify (set_isRateLimited false).

Definition startMediaRecorder : Action unit :=
  c <- get ;;
  if negb (is_some (streamRef c)) || is_recording (mediaRecorderRef c) then ret tt
  else
    modify (set_chunksRef []) ;;
    emit RecorderStart ;;
    modify (set_mediaRecorderRef (Some recording)) ;;
    updateState RECORDING ;;
    emit ConsoleLog.

(** [recorder.ondataavailable]. *)
Definition ondataavailable (data : Blob) : Action unit :=
  c <- get ;;
  when (0 <? Z.of_nat (List.length data))
       (modify (set_chunksRef (chunksRef c ++ [data]))).

(** [new Blob(chunks, { type: 'video/webm' })]. *)
Definition new_Blob (chunks : list Blob) : Blob := List.concat chunks.

(** The retention decision of [handleGameOver]. *)
Definition retention (score : option Z) : Status :=
  match score with
  | None => manual_review
  | Some s => if TARGET_SCORE <=? s then saved else discarded
  end.

(** [handleGameOver] from the line after [await stopMediaRecorder()]. *)
Definition handleGameOver_resume (env : Env) (score : option Z)
  (thumbnail : string) (videoBlob : Blob) : Action unit :=
  let status := retention score in
  let record :=
    mkAttemptRecord (Math_random_id env) (Date_now env) score status
      (if Status_eqb status discarded then None else Some videoBlob)
      (Some thumbnail) in
  emit (LogEntry record) ;;
  updateState WAITING_FOR_START.

(** [handleGameOver] up to its [await].  [stopMediaRecorder] resolves at
    once with an empty blob when there is no recorder or it is inactive,
    and the rest of [handleGameOver] is then the next microtask, ahead of
    whatever the caller awaits.  Otherwise it installs the [onstop]
    handler and stops the recorder: the rest runs at the stop event. *)
Definition handleGameOver (env : Env) (score : option Z) (thumbnail : string)
  : Action unit :=
  updateState ANALYZING ;;
  emit ConsoleLog ;;
  c <- get ;;
  if is_recording (mediaRecorderRef c) then
    modify (set_stopping (stopping c ++ [(score, thumbnail)])) ;;
    emit RecorderStop ;;
    modify (set_mediaRecorderRef (Some inactive))
  else
    handleGameOver_resume env score thumbnail (new_Blob []).

(** The [onstop] handler installed by [stopMediaRecorder], followed by
    the rest of the [handleGameOver] call it resolves. *)
Definition onstop (env : Env) : Action unit :=
  c <- get ;;
  match stopping c with
  | [] => ret tt
  | (score, thumbnail) :: rest =>
      let blob := new_Blob (chunksRef c) in
      modify (set_chunksRef []) ;;
      modify (set_stopping rest) ;;
      handleGameOver_resume env score thumbnail blob
  end.

(** [performAnalysis] from [setLastAnalysis] on: what is done with a
    classification [result]. *)
Definition performAnalysis_resume (env : Env) (result : AnalysisResult)
  : Action unit :=
  modify (set_lastAnalysis (Some (isGameOver result, score result))) ;;
  c <- get ;;
  let currentState := stateRef c in
  let base64ForThumbnail :=
    if DetectionMode_eqb (mode c) GEMINI then None else Some (toDataURL env) in
  match currentState with
  | MONITORING =>
      if isGameOver result then updateState WAITING_FOR_START
      else startMediaRecorder
  | RECORDING =>
      if isGameOver result then
        let thumb :=
          match base64ForThumbnail with
          | Some s => if (s =? "")%string then toDataURL env else s
          | None => toDataURL env
          end in
        handleGameOver env (score result) thumb
      else ret tt
  | WAITING_FOR_START =>
      if negb (isGameOver result) then startMediaRecorder else ret tt
  | _ => ret tt
  end.

(** How far a call of [performAnalysis] got when it gave control back. *)
Inductive Progress : Type :=
| Finished          (* the promise is resolved *)
| AwaitingRemote.   (* suspended at [await analyzeGameFrame(base64Image)] *)

Definition performAnalysis (env : Env) : Action Progress :=
  c <- get ;;
  if negb (videoRef_current env) || negb (canvasRef_current env)
     || RecorderState_eqb (stateRef c) ANALYZING
  then ret Finished
  else
    match getContext_2d env with
    | None => ret Finished
    | Some ctx =>
        emit DrawImage ;;
        if DetectionMode_eqb (mode c) GEMINI then
          emit (RemoteRequest (toDataURL env)) ;;
          ret AwaitingRemote
        else
          let result := analyzeGameFrameLocally ctx 640 360 in
          emit (LocalAnalysis result) ;;
          performAnalysis_resume env result ;;
          ret Finished
    end.

Definition interval_of (m : DetectionMode) : Z :=
  if DetectionMode_eqb m LOCAL then LOCAL_INTERVAL_MS else BASE_INTERVAL_MS.

(** [runAnalysisLoop] after [await performAnalysis()] has resolved. *)
Definition runAnalysisLoop_resume : Action unit :=
  c <- get ;;
  modify (set_isRateLimited false) ;;
  scheduleNextAnalysis (interval_of (mode c)).

(** The value caught by [catch (err: any)]: its [message], if any. *)
Record Err : Type := mkErr { message : option string }.

(** [s.includes(needle)]. *)
Fixpoint includes (needle s : string) : bool :=
  String.prefix needle s
  || match s with
     | EmptyString => false
     | String _ rest => includes needle rest
     end.

(** [err.message?.includes(needle)], falsy without a message. *)
Definition message_includes (err : Err) (needle : string) : bool :=
  match message err with
  | Some m => includes needle m
  | None => false
  end.

(** The [catch] block of [runAnalysisLoop]. *)
Definition runAnalysisLoop_catch (err : Err) : Action unit :=
  c <- get ;;
  emit ConsoleWarn ;;
  let isQuotaError :=
    message_includes err "429" || message_includes err "RESOURCE_EXHAUSTED" in
  if isQuotaError && DetectionMode_eqb (mode c) GEMINI then
    modify (set_isRateLimited true) ;;
    scheduleNextAnalysis ERROR_BACKOFF_MS
  else
    scheduleNextAnalysis (interval_of (mode c)).

Definition stream_live (o : option MediaStream) : bool :=
  match o with Some s => active s | None => false end.

(** [runAnalysisLoop] up to the point where it gives control back. *)
Definition runAnalysisLoop (env : Env) : Action unit :=
  c <- get ;;
  if negb (stream_live (streamRef c)) then ret tt
  else
    let interval := interval_of (mode c) in
    if document_hidden env then scheduleNextAnalysis (interval * 2)
    else
      p <- performAnalysis env ;;
      match p with
      | Finished => runAnalysisLoop_resume
      | AwaitingRemote => ret tt
      end.

(** The events the browser delivers to the component. *)
Inductive Event : Type :=
| EvStartCapture (media : DisplayMedia) (* "Select Game Tab", once getDisplayMedia settled *)
| EvStopSession                         (* "Stop Monitor", or the video track ended *)
| EvTimer (env : Env)                   (* the timer set by scheduleNextAnalysis fires *)
| EvRemoteResolved (env : Env) (result : AnalysisResult)
                                        (* the promise of analyzeGameFrame resolves *)
| EvRemoteRejected (err : Err)          (* the promise of analyzeGameFrame rejects *)
| EvDataAvailable (data : Blob)         (* the recorder delivers a chunk *)
| EvRecorderStopped (env : Env)         (* the stop event of the oldest recorder that
                                           handleGameOver stopped *)
| EvSetMode (m : DetectionMode).        (* a click on the mode switcher *)

(** The handler of each event.  "Select Game Tab" is rendered only while
    [stream] is null, and the mode buttons do [!stream && setMode(...)]. *)
Definition handle (ev : Event) : Action unit :=
  match ev with
  | EvStartCapture media =>
      c <- get ;;
      if is_some (stream c) then ret tt else startCapture media
  | EvStopSession => stopSession
  | EvTimer env => runAnalysisLoop env
  | EvRemoteResolved env result =>
      performAnalysis_resume env result ;; runAnalysisLoop_resume
  | EvRemoteRejected err => runAnalysisLoop_catch err
  | EvDataAvailable data => ondataavailable data
  | EvRecorderStopped env => onstop env
  | EvSetMode m =>
      c <- get ;;
      if is_some (stream c) then ret tt else modify (set_mode m)
  end.

(** One event: the component afterwards and the effects of the handler. *)
Definition step (c : Component) (ev : Event) : Component * list Effect :=
  let r := handle ev c in (snd (fst r), snd r).

(** A sequence of events, effects in order. *)
Fixpoint run (c : Component) (evs : list Event) : Component * list Effect :=
  match evs with
  | [] => (c, [])
  | ev :: rest =>
      let r1 := step c ev in
      let r2 := run (fst r1) rest in
      (fst r2, snd r1 ++ snd r2)
  end.

(** Projections of an effect trace. *)
Definition records (effs : list Effect) : list AttemptRecord :=
  flat_map (fun e => match e with LogEntry r => [r] | _ => [] end) effs.

Definition timeouts (effs : list Effect) : list Z :=
  flat_map (fun e => match e with SetTimeout d => [d] | _ => [] end) effs.

Definition opened (effs : list Effect) : Z :=
  count (fun e => match e with RecorderStart => true | _ => false end) effs.

Definition closed (effs : list Effect) : Z :=
  count (fun e => match e with RecorderStop => true | _ => false end) effs.

Definition samples (effs : list Effect) : Z :=
  count (fun e => match e with DrawImage => true | _ => false end) effs.

Definition classifications (effs : list Effect) : Z :=
  count (fun e => match e with
                  | RemoteRequest _ | LocalAnalysis _ => true
                  | _ => false
                  end) effs.

End Recorder.

(* ================================================================= *)
(** ** App.tsx *)

Module App.

(** [handleLogEntry]: [setLogs(prev => [entry, ...prev])]. *)
Definition handleLogEntry (entry : AttemptRecord) (logs : list AttemptRecord)
  : list AttemptRecord := entry :: logs.

(** [handleClearLogs]. *)
Definition handleClearLogs (logs : list AttemptRecord) : list AttemptRecord := [].

(** The history after the component's effects reached [onLogEntry]. *)
Definition deliver (effs : list Recorder.Effect) (logs : list AttemptRecord)
  : list AttemptRecord :=
  fold_left (fun acc r => handleLogEntry r acc) (Recorder.records effs) logs.

End App.

(* ================================================================= *)
(** * Properties *)

(** ** Loops and counters *)

Lemma allb_sound (f : Z -> bool) (n : nat) :
  forall z, allb f n z = true ->
  forall k, z <= k < z + Z.of_nat n -> f k = true.
Proof.
  induction n as [|n IH]; intros z H k Hk.
  - lia.
  - cbn [allb] in H. apply andb_true_iff in H as [Hz Hrest].
    destruct (Z.eq_dec k z) as [->|Hne]; [exact Hz|].
    apply (IH (z + 1) Hrest). lia.
Qed.

Lemma in_range (n i : Z) : In i (range n) <-> 0 <= i < n.
Proof.
  unfold range. rewrite in_map_iff. split.
  - intros [k [<- Hk]]. apply in_seq in Hk. lia.
  - intros Hi. exists (Z.to_nat i). split; [lia|]. apply in_seq. lia.
Qed.

Lemma range_length (n : Z) : List.length (range n) = Z.to_nat n.
Proof. unfold range. now rewrite length_map, length_seq. Qed.

Lemma count_nil {A : Type} (p : A -> bool) : count p [] = 0.
Proof. reflexivity. Qed.

Lemma count_cons {A : Type} (p : A -> bool) (a : A) (l : list A) :
  count p (a :: l) = (if p a then 1 else 0) + count p l.
Proof. unfold count. cbn [filter]. destruct (p a); cbn [List.length]; lia. Qed.

Lemma count_app {A : Type} (p : A -> bool) (l1 l2 : list A) :
  count p (l1 ++ l2) = count p l1 + count p l2.
Proof. unfold count. rewrite filter_app, length_app. lia. Qed.

Lemma count_bounds {A : Type} (p : A -> bool) (l : list A) :
  0 <= count p l <= Z.of_nat (List.length l).
Proof.
  induction l as [|a l IH]; [cbn; lia|].
  rewrite count_cons. cbn [List.length]. destruct (p a); lia.
Qed.

Lemma count_ext_in {A : Type} (p q : A -> bool) (l : list A) :
  (forall a, In a l -> p a = q a) -> count p l = count q l.
Proof.
  induction l as [|a l IH]; intros H; [reflexivity|].
  rewrite !count_cons, (H a (or_introl eq_refl)), IH; [reflexivity|].
  intros b Hb. apply H. now right.
Qed.

Lemma count_none {A : Type} (p : A -> bool) (l : list A) :
  (forall a, In a l -> p a = false) -> count p l = 0.
Proof.
  induction l as [|a l IH]; intros H; [reflexivity|].
  rewrite count_cons, (H a (or_introl eq_refl)), IH; [reflexivity|].
  intros b Hb. apply H. now right.
Qed.

Module LocalDetectionProofs.
Import LocalDetection.

(** A loop whose body bumps each of the three counters on its own test
    ends with the number of indices that passed each test. *)
Lemma tally_fold (p1 p2 p3 : Z -> bool) (body : Z -> Tally -> Tally) (l : list Z) :
  (forall i t, In i l ->
     body i t = mkTally (if p1 i then blue t + 1 else blue t)
                        (if p2 i then green t + 1 else green t)
                        (if p3 i then white t + 1 else white t)) ->
  forall t, fold_left (fun acc i => body i acc) l t
            = mkTally (blue t + count p1 l) (green t + count p2 l)
                      (white t + count p3 l).
Proof.
  induction l as [|i l IH]; intros Hbody t.
  - cbn [fold_left]. rewrite !count_nil, !Z.add_0_r. now destruct t.
  - cbn [fold_left]. rewrite IH by (intros j u Hj; apply Hbody; now right).
    rewrite (Hbody i t (or_introl eq_refl)). cbn [blue green white].
    rewrite !count_cons. f_equal; destruct (p1 i), (p2 i), (p3 i); lia.
Qed.

(** *** The binary64 comparisons of the source, settled by evaluation *)

Definition check_distance (d : Z) : bool :=
  Bool.eqb (PrimFloat.ltb (PrimFloat.sqrt (num d)) COLOR_TOLERANCE) (d <? 70 ^ 2).

Definition check_threshold (c : Z) : bool :=
  Bool.eqb (PrimFloat.ltb (PrimFloat.mul (num scanWidth) 0.4%float) (num c))
           (40 * 20 <? 100 * c).

Definition check_bands (y : Z) : bool :=
  let yPercent := PrimFloat.div (num y) (num 360) in
  Bool.eqb (PrimFloat.ltb yPercent 0.40%float) (100 * y <? 40 * 360)
  && Bool.eqb (PrimFloat.ltb 0.30%float yPercent) (30 * 360 <? 100 * y)
  && Bool.eqb (PrimFloat.ltb yPercent 0.70%float) (100 * y <? 70 * 360)
  && Bool.eqb (PrimFloat.ltb 0.50%float yPercent) (50 * 360 <? 100 * y)
  && Bool.eqb (PrimFloat.ltb yPercent 0.85%float) (100 * y <? 85 * 360).

Definition check_rows (n : Z) : bool :=
  Bool.eqb (PrimFloat.ltb (PrimFloat.mul (num 360) 0.02%float) (num n))
           (2 * 360 <? 100 * n).

Lemma distance_exact (d : Z) :
  0 <= d < 196000 ->
  PrimFloat.ltb (PrimFloat.sqrt (num d)) COLOR_TOLERANCE = (d <? 70 ^ 2).
Proof.
  intros Hd. apply eqb_prop. change (check_distance d = true).
  apply (allb_sound check_distance (Z.to_nat 196000) (z := 0)); [|lia].
  vm_compute. reflexivity.
Qed.

Lemma threshold_exact (c : Z) :
  0 <= c <= 20 ->
  PrimFloat.ltb (PrimFloat.mul (num scanWidth) 0.4%float) (num c)
  = (40 * 20 <? 100 * c).
Proof.
  intros Hc. apply eqb_prop. change (check_threshold c = true).
  apply (allb_sound check_threshold 21 (z := 0)); [|lia].
  vm_compute. reflexivity.
Qed.

Lemma bands_exact (y : Z) :
  0 <= y < 360 -> check_bands y = true.
Proof.
  intros Hy. apply (allb_sound check_bands 360 (z := 0)); [|lia].
  vm_compute. reflexivity.
Qed.

Lemma rows_exact (n : Z) :
  0 <= n <= 360 ->
  PrimFloat.ltb (PrimFloat.mul (num 360) 0.02%float) (num n) = (2 * 360 <? 100 * n).
Proof.
  intros Hn. apply eqb_prop. change (check_rows n = true).
  apply (allb_sound check_rows 361 (z := 0)); [|lia].
  vm_compute. reflexivity.
Qed.

(** *** Pixels *)

Lemma at_index_range (frameData : ImageData) (i v : Z) :
  at_index frameData i = Some v -> 0 <= v <= 255.
Proof.
  unfold at_index. destruct (i <? 0); [discriminate|].
  destruct (nth_error frameData (Z.to_nat i)) as [b|]; [|discriminate].
  cbn. intros [= <-]. pose proof (Byte.to_N_bounded b). lia.
Qed.

Lemma square_bound (v t : Z) :
  0 <= v <= 255 -> 0 <= t <= 255 -> 0 <= (v - t) ^ 2 <= 65025.
Proof. intros Hv Ht. nia. Qed.

Lemma colorMatch_exact (frameData : ImageData) (i j k : Z) (target : RGB) :
  0 <= r_ target <= 255 -> 0 <= g_ target <= 255 -> 0 <= b_ target <= 255 ->
  colorMatch (at_index frameData i) (at_index frameData j) (at_index frameData k)
             target
  = spec_near target
      (at_index frameData i, at_index frameData j, at_index frameData k).
Proof.
  intros Hr Hg Hb. unfold colorMatch, spec_near.
  destruct (at_index frameData i) as [r|] eqn:Ei; [|reflexivity].
  destruct (at_index frameData j) as [g|] eqn:Ej; [|reflexivity].
  destruct (at_index frameData k) as [b|] eqn:Ek; [|reflexivity].
  apply at_index_range in Ei, Ej, Ek.
  pose proof (square_bound Ei Hr). pose proof (square_bound Ej Hg).
  pose proof (square_bound Ek Hb).
  apply distance_exact. lia.
Qed.

Lemma isWhiteish_exact (r g b : option Z) :
  isWhiteish r g b = spec_white (r, g, b).
Proof.
  unfold isWhiteish, spec_white, gt220.
  destruct r, g, b; cbn; rewrite ?andb_false_r; reflexivity.
Qed.

(** *** Rows *)

Lemma scanned_row (frameData : ImageData) (y : Z) :
  for_range scanWidth (scanPixel frameData y) (mkTally 0 0 0)
  = mkTally
      (count (fun x => spec_near TARGET_BLUE (spec_pixel frameData y x)) (range 20))
      (count (fun x => spec_near TARGET_GREEN (spec_pixel frameData y x)) (range 20))
      (count (fun x => spec_white (spec_pixel frameData y x)) (range 20)).
Proof.
  unfold for_range. change scanWidth with 20.
  rewrite (tally_fold
             (fun x => spec_near TARGET_BLUE (spec_pixel frameData y x))
             (fun x => spec_near TARGET_GREEN (spec_pixel frameData y x))
             (fun x => spec_white (spec_pixel frameData y x))).
  - reflexivity.
  - intros x t _. unfold scanPixel, spec_pixel. change scanWidth with 20.
    rewrite !colorMatch_exact by (cbn; lia).
    rewrite isWhiteish_exact. reflexivity.
Qed.

Lemma row_count_range (p : Z -> bool) : 0 <= count p (range 20) <= 20.
Proof.
  pose proof (count_bounds p (range 20)) as H.
  rewrite range_length, Z2Nat.id in H; lia.
Qed.

Lemma scanRow_exact (frameData : ImageData) (y : Z) (rows : Tally) :
  0 <= y < 360 ->
  scanRow frameData 360 y rows
  = mkTally
      (if spec_blue_row frameData 360 y then blue rows + 1 else blue rows)
      (if spec_green_row frameData 360 y then green rows + 1 else green rows)
      (if spec_white_row frameData 360 y then white rows + 1 else white rows).
Proof.
  intros Hy. unfold scanRow. rewrite scanned_row. cbn [blue green white].
  rewrite !threshold_exact by apply row_count_range.
  pose proof (bands_exact Hy) as Hb. unfold check_bands in Hb. cbv zeta in Hb.
  repeat (apply andb_true_iff in Hb as [Hb ?]).
  repeat match goal with H : Bool.eqb _ _ = true |- _ =>
    apply eqb_prop in H; rewrite H; clear H end.
  reflexivity.
Qed.

Lemma scanned_rows (frameData : ImageData) :
  for_range 360 (scanRow frameData 360) (mkTally 0 0 0)
  = mkTally (count (spec_blue_row frameData 360) (range 360))
            (count (spec_green_row frameData 360) (range 360))
            (count (spec_white_row frameData 360) (range 360)).
Proof.
  unfold for_range.
  rewrite (tally_fold (spec_blue_row frameData 360) (spec_green_row frameData 360)
                      (spec_white_row frameData 360)).
  - reflexivity.
  - intros y t Hy. apply scanRow_exact. now apply in_range.
Qed.

Lemma frame_count_range (p : Z -> bool) : 0 <= count p (range 360) <= 360.
Proof.
  pose proof (count_bounds p (range 360)) as H.
  rewrite range_length, Z2Nat.id in H; lia.
Qed.

Lemma classifyFrame_exact (frameData : ImageData) :
  classifyFrame frameData 360
  = mkAnalysisResult (spec_isGameOver frameData 360) None
      (if spec_isGameOver frameData 360 then 1.0%float else 0.0%float).
Proof.
  unfold classifyFrame. rewrite scanned_rows. cbn [blue green white].
  rewrite !rows_exact by apply frame_count_range.
  unfold spec_isGameOver, spec_hasRibbon, spec_hasButton, spec_hasUrlBox,
    spec_exceeds.
  reflexivity.
Qed.

Lemma no_blue_no_ribbon (frameData : ImageData) :
  no_blue_signature frameData 360 -> spec_hasRibbon frameData 360 = false.
Proof.
  intros Hno. unfold spec_hasRibbon.
  rewrite count_none; [reflexivity|].
  intros y Hy. apply in_range in Hy.
  unfold spec_blue_row, spec_row_matches.
  rewrite count_none; [now rewrite andb_false_r|].
  intros x Hx. apply in_range in Hx. now apply Hno.
Qed.

(** C5.  On the 640x360 frame the controller samples, whatever the pixel
    data of the centre strip, the local classifier answers
    [hasRibbon && (hasButton || hasUrlBox)] with the row and band tests
    of the specification (more than 40% of the 20-pixel strip within
    distance 70 of the reference colour or whiter than 220, in the bands
    below 40%, 30-70% and 50-85% of the height, each row count above 2% of
    the height), with no score and confidence 1.0 or 0.0; a strip without
    any ribbon-blue pixel is never a game-over frame. *)
Theorem analyzeGameFrameLocally_spec
  (ctx : CanvasRenderingContext2D) (frameData : ImageData) :
  getImageData ctx 310 0 20 360 = Returns frameData ->
  analyzeGameFrameLocally ctx 640 360
  = mkAnalysisResult (spec_isGameOver frameData 360) None
      (if spec_isGameOver frameData 360 then 1.0%float else 0.0%float)
  /\ (no_blue_signature frameData 360 ->
      isGameOver (analyzeGameFrameLocally ctx 640 360) = false).
Proof.
  intros Hget.
  assert (Heq : analyzeGameFrameLocally ctx 640 360 = classifyFrame frameData 360).
  { unfold analyzeGameFrameLocally.
    change (Z.max 0 (640 / 2 - scanWidth / 2)) with 310.
    change scanWidth with 20. now rewrite Hget. }
  rewrite Heq, classifyFrame_exact. split; [reflexivity|].
  intros Hno. cbn [isGameOver]. unfold spec_isGameOver.
  now rewrite (no_blue_no_ribbon Hno).
Qed.

(** A context whose strip is entirely black, at the sampled size. *)
Definition black_ctx : CanvasRenderingContext2D :=
  mkCtx (fun _ _ sw sh => Returns (repeat "000"%byte (Z.to_nat (sw * sh * 4)))).

Lemma analyzeGameFrameLocally_spec_witness :
  getImageData black_ctx 310 0 20 360 = Returns (repeat "000"%byte (Z.to_nat 28800))
  /\ analyzeGameFrameLocally black_ctx 640 360
     = mkAnalysisResult (spec_isGameOver (repeat "000"%byte (Z.to_nat 28800)) 360) None
         (if spec_isGameOver (repeat "000"%byte (Z.to_nat 28800)) 360
          then 1.0%float else 0.0%float).
Proof.
  split; [reflexivity|].
  apply (analyzeGameFrameLocally_spec black_ctx (frameData := repeat "000"%byte (Z.to_nat 28800))).
  reflexivity.
Defined.

(** C9.  When reading the strip throws, whatever the frame size, the
    classifier returns the negative result with no score and confidence
    0; the function has no other outcome than an [AnalysisResult]. *)
Theorem analyzeGameFrameLocally_catch
  (ctx : CanvasRenderingContext2D) (width height : Z) (msg : option string) :
  getImageData ctx (Z.max 0 (width / 2 - 10)) 0 20 height = Throws msg ->
  analyzeGameFrameLocally ctx width height = mkAnalysisResult false None 0%float.
Proof.
  intros Hget. unfold analyzeGameFrameLocally.
  change (scanWidth / 2) with 10. change scanWidth with 20.
  now rewrite Hget.
Qed.

(** A context that is not ready: every read throws. *)
Definition failing_ctx : CanvasRenderingContext2D :=
  mkCtx (fun _ _ _ _ => Throws (Some "InvalidStateError"%string)).

Lemma analyzeGameFrameLocally_catch_witness :
  analyzeGameFrameLocally failing_ctx 640 360 = mkAnalysisResult false None 0%float.
Proof.
  apply (analyzeGameFrameLocally_catch failing_ctx 640 360
           (msg := Some "InvalidStateError"%string)).
  reflexivity.
Defined.

End LocalDetectionProofs.

Module RecorderProofs.
Import LocalDetection Recorder.

Arguments analyzeGameFrameLocally : simpl never.
Arguments includes : simpl never.

(** The component after a handler, and what the handler did. *)
Definition after {A : Type} (m : Action A) (c : Component) : Component := snd (fst (m c)).
Definition effects {A : Type} (m : Action A) (c : Component) : list Effect := snd (m c).

(** *** Traces *)

Lemma run_app (evs1 evs2 : list Event) :
  forall c, run c (evs1 ++ evs2)
            = (fst (run (fst (run c evs1)) evs2),
               snd (run c evs1) ++ snd (run (fst (run c evs1)) evs2)).
Proof.
  induction evs1 as [|ev evs1 IH]; intros c.
  - cbn [app run fst snd]. now destruct (run c evs2).
  - cbn [app run fst snd]. rewrite IH. cbn [fst snd]. now rewrite app_assoc.
Qed.

Lemma run_one (c : Component) (ev : Event) : run c [ev] = step c ev.
Proof. cbn [run fst snd]. rewrite app_nil_r. now destruct (step c ev). Qed.

Lemma records_app (e1 e2 : list Effect) : records (e1 ++ e2) = records e1 ++ records e2.
Proof. apply flat_map_app. Qed.

Lemma timeouts_app (e1 e2 : list Effect) : timeouts (e1 ++ e2) = timeouts e1 ++ timeouts e2.
Proof. apply flat_map_app. Qed.

Lemma opened_app (e1 e2 : list Effect) : opened (e1 ++ e2) = opened e1 + opened e2.
Proof. apply count_app. Qed.

Lemma closed_app (e1 e2 : list Effect) : closed (e1 ++ e2) = closed e1 + closed e2.
Proof. apply count_app. Qed.

Lemma samples_app (e1 e2 : list Effect) : samples (e1 ++ e2) = samples e1 + samples e2.
Proof. apply count_app. Qed.

Lemma classifications_app (e1 e2 : list Effect) :
  classifications (e1 ++ e2) = classifications e1 + classifications e2.
Proof. apply count_app. Qed.

(** Case analysis on whatever test the handler is stuck on. *)
Ltac split_handler :=
  repeat (cbn in *;
          match goal with
          | |- context [negb ?b] => is_var b; destruct b
          | |- context [if ?b then _ else _] => is_var b; destruct b
          | |- context [match ?x with _ => _ end] => is_var x; destruct x
          | |- context [when ?b _] => destruct b eqn:?
          | |- context [if ?b then _ else _] => destruct b eqn:?
          | |- context [match ?x with _ => _ end] => destruct x eqn:?
          end);
  cbn in *; try discriminate; try congruence;
  try match goal with
      | H : ?x = _, H' : context [?x] |- _ =>
          rewrite H in H'; cbn in H'; discriminate
      end.

(** Chunks delivered by the recorder only grow the buffer. *)
Definition nonempty (data : Blob) : bool := 0 <? Z.of_nat (List.length data).

Lemma run_data (datas : list Blob) :
  forall c, run c (map EvDataAvailable datas)
            = (set_chunksRef (chunksRef c ++ filter nonempty datas) c, []).
Proof.
  induction datas as [|d datas IH]; intros c.
  - cbn. rewrite app_nil_r. now destruct c.
  - cbn [map run]. rewrite IH. destruct c. unfold nonempty. cbn.
    destruct (0 <? Z.of_nat (List.length d)); cbn; [|reflexivity].
    now rewrite <- app_assoc.
Qed.

(** C1.  When [handleGameOver] closes a running recorder, the one record
    emitted at the recorder's stop event carries the reported score and a
    status that depends on that score alone: unknown gives manual-review
    with the flushed buffer, a known score of at least 45 gives saved with
    the buffer, a known score below 45 gives discarded with no buffer; in
    particular 44 is discarded without buffer and 45 is saved with it.
    The flushed buffer is every chunk recorded, those delivered after the
    stop request included. *)
Theorem handleGameOver_retention
  (c : Component) (env env' : Env) (score : option Z) (thumbnail : string)
  (datas : list Blob) :
  stateRef c = RECORDING ->
  mediaRecorderRef c = Some recording ->
  stopping c = [] ->
  let c1 := after (handleGameOver env score thumbnail) c in
  let r := run c1 (map EvDataAvailable datas ++ [EvRecorderStopped env']) in
  let buffer := new_Blob (chunksRef c ++ filter nonempty datas) in
  stateRef c1 = ANALYZING
  /\ records (effects (handleGameOver env score thumbnail) c) = []
  /\ stateRef (fst r) = WAITING_FOR_START
  /\ exists record,
       records (snd r) = [record]
       /\ rec_score record = score
       /\ status record
          = match score with
            | None => manual_review
            | Some s => if 45 <=? s then saved else discarded
            end
       /\ videoBlob record
          = match score with
            | None => Some buffer
            | Some s => if 45 <=? s then Some buffer else None
            end
       /\ (score = Some 44 -> status record = discarded /\ videoBlob record = None)
       /\ (score = Some 45 -> status record = saved /\ videoBlob record = Some buffer).
Proof.
  intros Hstate Hrec Hstop c1 r buffer. subst c1 r buffer.
  rewrite run_app, run_data, run_one.
  destruct c, env, env'. cbn in Hstate, Hrec, Hstop. subst.
  unfold after, effects. cbn.
  repeat split.
  eexists. split; [reflexivity|]. cbn.
  unfold retention, TARGET_SCORE.
  destruct score as [s|]; cbn.
  - do 2 (split; [reflexivity|]).
    split; [now destruct (45 <=? s)|].
    split; intros [= ->]; cbn; split; reflexivity.
  - do 3 (split; [reflexivity|]). split; discriminate.
Qed.

(** A live stream, a visible page with the elements mounted, and a
    session that has started recording in remote mode. *)
Definition live : MediaStream := mkMediaStream true.

Definition page : Env :=
  mkEnv false true true (Some LocalDetectionProofs.black_ctx)
        "data:image/png;base64,iVBORw0KGgo="%string 1700000000000 "k3v9x2m1q"%string.

Definition playing : AnalysisResult := mkAnalysisResult false (Some 0) 0.9%float.

Definition recording_session : Component :=
  fst (run (initial GEMINI)
           [EvStartCapture (Granted live); EvTimer page; EvRemoteResolved page playing]).

Lemma handleGameOver_retention_witness :
  stateRef recording_session = RECORDING
  /\ mediaRecorderRef recording_session = Some recording
  /\ stopping recording_session = []
  /\ map status
       (records
          (snd (run (after (handleGameOver page (Some 44) "thumb"%string) recording_session)
                    (map EvDataAvailable [["001"%byte]] ++ [EvRecorderStopped page]))))
     = [discarded].
Proof.
  refine (conj eq_refl (conj eq_refl (conj eq_refl _))).
  destruct (handleGameOver_retention recording_session page page (Some 44)
              "thumb"%string [["001"%byte]] eq_refl eq_refl eq_refl)
    as (_ & _ & _ & record & Hrecs & _ & Hstatus & _).
  rewrite Hrecs. cbn [map]. now rewrite Hstatus.
Defined.

(** C2.  What a classification result does, state by state, in a live
    session whose recorder runs exactly while the state is [RECORDING]:
    a negative result in [MONITORING] or [WAITING_FOR_START] opens one
    fresh buffer and enters [RECORDING]; a positive result in
    [MONITORING] enters [WAITING_FOR_START] and in [WAITING_FOR_START]
    changes nothing, without any buffer action; a negative result in
    [RECORDING] does nothing; a positive result in [RECORDING] enters
    [ANALYZING] and stops the one recorder, and the recorder's stop event
    then emits exactly one record and enters [WAITING_FOR_START]. *)
Theorem performAnalysis_transitions
  (c : Component) (env : Env) (result : AnalysisResult) :
  is_some (streamRef c) = true ->
  is_recording (mediaRecorderRef c) = RecorderState_eqb (stateRef c) RECORDING ->
  stopping c = [] ->
  let c' := after (performAnalysis_resume env result) c in
  let effs := effects (performAnalysis_resume env result) c in
  match stateRef c, isGameOver result with
  | MONITORING, false | WAITING_FOR_START, false =>
      stateRef c' = RECORDING /\ mediaRecorderRef c' = Some recording
      /\ chunksRef c' = []
      /\ opened effs = 1 /\ closed effs = 0 /\ records effs = []
  | MONITORING, true | WAITING_FOR_START, true =>
      stateRef c' = WAITING_FOR_START
      /\ mediaRecorderRef c' = mediaRecorderRef c /\ chunksRef c' = chunksRef c
      /\ effs = []
  | RECORDING, false =>
      stateRef c' = RECORDING
      /\ mediaRecorderRef c' = mediaRecorderRef c /\ chunksRef c' = chunksRef c
      /\ effs = []
  | RECORDING, true =>
      stateRef c' = ANALYZING
      /\ opened effs = 0 /\ closed effs = 1 /\ records effs = []
      /\ forall env',
           stateRef (fst (step c' (EvRecorderStopped env'))) = WAITING_FOR_START
           /\ opened (snd (step c' (EvRecorderStopped env'))) = 0
           /\ closed (snd (step c' (EvRecorderStopped env'))) = 0
           /\ List.length (records (snd (step c' (EvRecorderStopped env')))) = 1%nat
  | _, _ => True
  end.
Proof.
  intros Hstream Hrec Hstop c' effs. subst c' effs. unfold after, effects.
  destruct c, env, result. cbn in Hstream, Hrec, Hstop. subst.
  destruct streamRef0; [|discriminate].
  destruct stateRef0, isGameOver0; cbn in Hrec |- *; try exact I;
    try rewrite Hrec; cbn; repeat split.
  all: destruct mediaRecorderRef0 as [[|]|]; try discriminate; reflexivity.
Qed.

Definition game_over_45 : AnalysisResult := mkAnalysisResult true (Some 45) 0.95%float.

Lemma performAnalysis_transitions_witness :
  is_some (streamRef recording_session) = true
  /\ is_recording (mediaRecorderRef recording_session)
     = RecorderState_eqb (stateRef recording_session) RECORDING
  /\ stopping recording_session = []
  /\ stateRef (after (performAnalysis_resume page game_over_45) recording_session)
     = ANALYZING.
Proof.
  refine (conj eq_refl (conj eq_refl (conj eq_refl _))).
  exact (proj1 (performAnalysis_transitions recording_session page game_over_45
                  eq_refl eq_refl eq_refl)).
Defined.

(** *** Ticks while the buffer is being flushed *)

(** Events of the tick loop: a timer, a classification outcome, a chunk. *)
Definition tick (ev : Event) : bool :=
  match ev with
  | EvTimer _ | EvRemoteResolved _ _ | EvRemoteRejected _ | EvDataAvailable _ => true
  | _ => false
  end.

(** A handler run that samples no frame, calls no classifier, starts and
    stops no recorder and emits no record. *)
Definition quiet (effs : list Effect) : Prop :=
  samples effs = 0 /\ classifications effs = 0 /\ opened effs = 0
  /\ closed effs = 0 /\ records effs = [].

Lemma quiet_nil : quiet [].
Proof. now repeat split. Qed.

Lemma quiet_app (e1 e2 : list Effect) : quiet e1 -> quiet e2 -> quiet (e1 ++ e2).
Proof.
  intros (A1 & A2 & A3 & A4 & A5) (B1 & B2 & B3 & B4 & B5). unfold quiet.
  rewrite samples_app, classifications_app, opened_app, closed_app, records_app.
  rewrite A1, A2, A3, A4, A5, B1, B2, B3, B4, B5. now repeat split.
Qed.

Lemma analyzing_step (c : Component) (ev : Event) :
  stateRef c = ANALYZING -> tick ev = true ->
  stateRef (fst (step c ev)) = ANALYZING
  /\ stopping (fst (step c ev)) = stopping c
  /\ mediaRecorderRef (fst (step c ev)) = mediaRecorderRef c
  /\ mode (fst (step c ev)) = mode c
  /\ quiet (snd (step c ev)).
Proof.
  intros Hs Ht. destruct c. cbn in Hs. subst.
  destruct ev as [media| |env|env result|err|data|env|m]; try discriminate;
    try destruct env; unfold quiet; split_handler; repeat split.
Qed.

Lemma analyzing_run (evs : list Event) :
  forall c, stateRef c = ANALYZING -> forallb tick evs = true ->
  stateRef (fst (run c evs)) = ANALYZING
  /\ stopping (fst (run c evs)) = stopping c
  /\ mediaRecorderRef (fst (run c evs)) = mediaRecorderRef c
  /\ mode (fst (run c evs)) = mode c
  /\ quiet (snd (run c evs)).
Proof.
  induction evs as [|ev evs IH]; intros c Hs Hall.
  - cbn [run fst snd]. do 4 (split; [assumption || reflexivity|]). apply quiet_nil.
  - cbn [forallb] in Hall. apply andb_true_iff in Hall as [Hev Hall].
    destruct (analyzing_step c ev Hs Hev) as (S1 & S2 & S3 & S4 & S5).
    destruct (IH _ S1 Hall) as (R1 & R2 & R3 & R4 & R5).
    cbn [run fst snd]. rewrite R1, R2, R3, R4, S2, S3, S4.
    do 4 (split; [reflexivity|]). now apply quiet_app.
Qed.

(** The recording session just after a positive result of score 45. *)
Definition flushing_session : Component :=
  fst (step recording_session (EvRemoteResolved page game_over_45)).

(** C3, as the code behaves at a concrete session: the handler of the
    positive result stops the recorder and sets the next timer, and the
    record is emitted only afterwards, by the recorder's stop event. *)
Lemma tick_scheduled_before_record :
  stateRef recording_session = RECORDING
  /\ snd (step recording_session (EvRemoteResolved page game_over_45))
     = [ConsoleLog; RecorderStop; ClearTimeout; SetTimeout 4000]
  /\ stateRef flushing_session = ANALYZING
  /\ stopping flushing_session = [(Some 45, toDataURL page)]
  /\ snd (run recording_session
              [EvRemoteResolved page game_over_45; EvRecorderStopped page])
     = [ConsoleLog; RecorderStop; ClearTimeout; SetTimeout 4000;
        LogEntry (mkAttemptRecord (Math_random_id page) (Date_now page) (Some 45)
                    saved (Some []) (Some (toDataURL page)))].
Proof. repeat split. Qed.

(** The only way from [RECORDING] to [ANALYZING] in one event is a
    positive result handled while the recorder runs: the recorder is
    stopped, one flush becomes pending, the next timer is set, and no
    record is emitted yet. *)
Lemma entering_analysis (c : Component) (ev : Event) :
  stateRef c = RECORDING ->
  stateRef (fst (step c ev)) = ANALYZING ->
  (exists pending, stopping (fst (step c ev)) = stopping c ++ [pending])
  /\ mode (fst (step c ev)) = mode c
  /\ timeouts (snd (step c ev)) = [interval_of (mode c)]
  /\ opened (snd (step c ev)) = 0
  /\ closed (snd (step c ev)) = 1
  /\ records (snd (step c ev)) = [].
Proof.
  intros Hs Ha. destruct c. cbn in Hs. subst.
  destruct ev as [media| |env|env result|err|data|env|m];
    try destruct env; try destruct result; split_handler.
  all: repeat split; eexists; reflexivity.
Qed.

(** C3, amended.  The event that takes a session from [RECORDING] to
    [ANALYZING] (a positive result while the recorder runs) stops the
    recorder and sets the next timer at once, at the mode's interval,
    while the record is still to come; until the recorder's stop event
    every event of the tick loop finds the state [ANALYZING] and samples
    nothing, classifies nothing, starts and stops no recorder, emits no
    record and leaves the pending flush in place. *)
Theorem game_over_reschedules_then_guards
  (c : Component) (ev : Event) (ticks : list Event) :
  stateRef c = RECORDING ->
  stateRef (fst (step c ev)) = ANALYZING ->
  forallb tick ticks = true ->
  let r := step c ev in
  let r' := run (fst r) ticks in
  timeouts (snd r) = [interval_of (mode c)]
  /\ closed (snd r) = 1
  /\ records (snd r) = []
  /\ stateRef (fst r') = ANALYZING
  /\ stopping (fst r') = stopping (fst r)
  /\ quiet (snd r').
Proof.
  intros Hs Ha Hticks r r'. subst r r'.
  destruct (entering_analysis c ev Hs Ha) as (_ & _ & A2 & _ & A3 & A4).
  destruct (analyzing_run ticks _ Ha Hticks) as (B1 & B2 & _ & _ & B5).
  exact (conj A2 (conj A3 (conj A4 (conj B1 (conj B2 B5))))).
Qed.

Lemma game_over_reschedules_then_guards_witness :
  stateRef recording_session = RECORDING
  /\ stateRef (fst (step recording_session (EvRemoteResolved page game_over_45)))
     = ANALYZING
  /\ forallb tick [EvTimer page; EvTimer page] = true
  /\ timeouts (snd (step recording_session (EvRemoteResolved page game_over_45)))
     = [4000].
Proof.
  refine (conj eq_refl (conj eq_refl (conj eq_refl _))).
  exact (proj1 (game_over_reschedules_then_guards recording_session
                  (EvRemoteResolved page game_over_45) [EvTimer page; EvTimer page]
                  eq_refl eq_refl eq_refl)).
Defined.

(** *** The end screen *)

(** A tick of the loop that brings no negative result: a positive remote
    result, or a timer whose local analysis, if it runs, is positive. *)
Definition game_over_tick (ev : Event) : bool :=
  match ev with
  | EvRemoteResolved _ result => isGameOver result
  | EvTimer env =>
      match getContext_2d env with
      | Some ctx => isGameOver (analyzeGameFrameLocally ctx 640 360)
      | None => true
      end
  | _ => false
  end.

Lemma waiting_step (c : Component) (ev : Event) :
  stateRef c = WAITING_FOR_START -> game_over_tick ev = true ->
  stateRef (fst (step c ev)) = WAITING_FOR_START
  /\ opened (snd (step c ev)) = 0
  /\ closed (snd (step c ev)) = 0
  /\ records (snd (step c ev)) = [].
Proof.
  intros Hs Ht. destruct c. cbn in Hs. subst.
  destruct ev as [media| |env|env result|err|data|env|m]; try discriminate;
    try destruct env; try destruct result; split_handler; repeat split.
Qed.

Lemma waiting_run (evs : list Event) :
  forall c, stateRef c = WAITING_FOR_START -> forallb game_over_tick evs = true ->
  stateRef (fst (run c evs)) = WAITING_FOR_START
  /\ opened (snd (run c evs)) = 0
  /\ closed (snd (run c evs)) = 0
  /\ records (snd (run c evs)) = [].
Proof.
  induction evs as [|ev evs IH]; intros c Hs Hall.
  - cbn [run fst snd]. now repeat split.
  - cbn [forallb] in Hall. apply andb_true_iff in Hall as [Hev Hall].
    destruct (waiting_step c ev Hs Hev) as (S1 & S2 & S3 & S4).
    destruct (IH _ S1 Hall) as (R1 & R2 & R3 & R4).
    cbn [run fst snd].
    rewrite opened_app, closed_app, records_app, R1, R2, R3, R4, S2, S3, S4.
    now repeat split.
Qed.

(** The stop event of the only pending flush ends the cycle with one
    record. *)
Lemma flush_completes (c : Component) (env : Env) (pending : PendingGameOver) :
  stopping c = [pending] ->
  stateRef (fst (step c (EvRecorderStopped env))) = WAITING_FOR_START
  /\ stopping (fst (step c (EvRecorderStopped env))) = []
  /\ opened (snd (step c (EvRecorderStopped env))) = 0
  /\ closed (snd (step c (EvRecorderStopped env))) = 0
  /\ List.length (records (snd (step c (EvRecorderStopped env)))) = 1%nat.
Proof.
  intros Hp. destruct c, env, pending. cbn in Hp. subst. cbn. now repeat split.
Qed.

(** C4.  One cycle, one record.  From [RECORDING] with nothing pending,
    take the event that enters [ANALYZING], then any number of further
    ticks (timers, results of any kind, failures, chunks), then the
    recorder's stop event: the state ends in [WAITING_FOR_START], the
    recorder was stopped once and exactly one record was emitted; the
    ticks in between changed nothing.  Positive results that follow in
    [WAITING_FOR_START] leave the state and emit nothing more. *)
Theorem one_record_per_cycle
  (c : Component) (ev : Event) (ticks : list Event) (env : Env) (more : list Event) :
  stateRef c = RECORDING ->
  stopping c = [] ->
  stateRef (fst (step c ev)) = ANALYZING ->
  forallb tick ticks = true ->
  forallb game_over_tick more = true ->
  let cycle := ev :: ticks ++ [EvRecorderStopped env] in
  stateRef (fst (run (fst (step c ev)) ticks)) = ANALYZING
  /\ records (snd (run (fst (step c ev)) ticks)) = []
  /\ stateRef (fst (run c cycle)) = WAITING_FOR_START
  /\ closed (snd (run c cycle)) = 1
  /\ List.length (records (snd (run c cycle))) = 1%nat
  /\ stateRef (fst (run c (cycle ++ more))) = WAITING_FOR_START
  /\ closed (snd (run c (cycle ++ more))) = 1
  /\ List.length (records (snd (run c (cycle ++ more)))) = 1%nat.
Proof.
  intros Hs Hstop Ha Hticks Hmore cycle. subst cycle.
  destruct (entering_analysis c ev Hs Ha) as ([pending E1] & _ & _ & _ & E5 & E6).
  rewrite Hstop in E1. cbn [app] in E1.
  destruct (analyzing_run ticks _ Ha Hticks) as (T1 & T2 & _ & _ & (_ & _ & _ & T6 & T7)).
  rewrite E1 in T2.
  destruct (flush_completes (fst (run (fst (step c ev)) ticks)) env T2)
    as (F1 & _ & _ & F4 & F5).
  assert (Hcycle : stateRef (fst (run c (ev :: ticks ++ [EvRecorderStopped env])))
                   = WAITING_FOR_START
                   /\ closed (snd (run c (ev :: ticks ++ [EvRecorderStopped env]))) = 1
                   /\ List.length
                        (records (snd (run c (ev :: ticks ++ [EvRecorderStopped env]))))
                      = 1%nat).
  { cbn [run fst snd]. rewrite run_app, run_one. cbn [fst snd].
    rewrite !closed_app, !records_app, !length_app, E5, E6, T6, T7, F4, F5.
    now repeat split. }
  destruct Hcycle as (C1 & C2 & C3).
  destruct (waiting_run more _ C1 Hmore) as (W1 & _ & W3 & W4).
  rewrite (run_app (ev :: ticks ++ [EvRecorderStopped env]) more). cbn [fst snd].
  rewrite closed_app, records_app, length_app, C2, C3, W3, W4.
  now repeat split.
Qed.

Lemma one_record_per_cycle_witness :
  stateRef recording_session = RECORDING
  /\ stopping recording_session = []
  /\ stateRef (fst (step recording_session (EvRemoteResolved page game_over_45)))
     = ANALYZING
  /\ forallb tick [EvTimer page; EvRemoteResolved page game_over_45] = true
  /\ forallb game_over_tick [EvRemoteResolved page game_over_45] = true
  /\ records
       (snd (run (fst (step recording_session (EvRemoteResolved page game_over_45)))
                 [EvTimer page; EvRemoteResolved page game_over_45]))
     = [].
Proof.
  refine (conj eq_refl (conj eq_refl (conj eq_refl (conj eq_refl (conj eq_refl _))))).
  exact (proj1 (proj2 (one_record_per_cycle recording_session
                         (EvRemoteResolved page game_over_45)
                         [EvTimer page; EvRemoteResolved page game_over_45] page
                         [EvRemoteResolved page game_over_45]
                         eq_refl eq_refl eq_refl eq_refl eq_refl))).
Defined.

(** *** Failures, stops, delays *)

(** The test of the [catch] block: a 429 or resource-exhausted signal. *)
Definition isQuotaError (err : Err) : bool :=
  message_includes err "429" || message_includes err "RESOURCE_EXHAUSTED".

(** C6.  A rejected classification call changes neither the session
    state nor the stream, the recorder, its chunks or a pending flush; it
    emits no record and is logged.  When the message carries a 429 or
    resource-exhausted signal and the mode is remote, the rate-limited
    flag is raised and the one timer set has the 10000 ms backoff;
    otherwise the flag is left alone and the one timer set has the mode's
    normal interval. *)
Theorem classification_failure_keeps_state (c : Component) (err : Err) :
  let r := step c (EvRemoteRejected err) in
  stateRef (fst r) = stateRef c
  /\ recorderState (fst r) = recorderState c
  /\ stream (fst r) = stream c
  /\ streamRef (fst r) = streamRef c
  /\ mediaRecorderRef (fst r) = mediaRecorderRef c
  /\ chunksRef (fst r) = chunksRef c
  /\ stopping (fst r) = stopping c
  /\ In ConsoleWarn (snd r)
  /\ quiet (snd r)
  /\ (if isQuotaError err && DetectionMode_eqb (mode c) GEMINI
      then isRateLimited (fst r) = true
           /\ timeouts (snd r) = [10000]
           /\ timeoutRef (fst r) = Some ERROR_BACKOFF_MS
      else isRateLimited (fst r) = isRateLimited c
           /\ timeouts (snd r) = [interval_of (mode c)]
           /\ timeoutRef (fst r) = Some (interval_of (mode c))).
Proof.
  intros r. subst r. destruct c, err as [msg]. unfold isQuotaError, quiet.
  cbn.
  destruct (message_includes {| message := msg |} "429"
            || message_includes {| message := msg |} "RESOURCE_EXHAUSTED");
    destruct mode0, timeoutRef0; cbn; repeat split; auto.
Qed.

(** A timer that fires without a live stream does nothing. *)
Lemma dead_stream_timer (c : Component) (env : Env) :
  stream_live (streamRef c) = false -> step c (EvTimer env) = (c, []).
Proof.
  intros Hdead. destruct c. cbn in Hdead. subst. unfold step. cbn.
  rewrite Hdead. reflexivity.
Qed.

(** *** Results that arrive after a stop *)

(** The events that attach a new stream. *)
Definition restarts (ev : Event) : bool :=
  match ev with
  | EvStartCapture (Granted _) => true
  | _ => false
  end.

(** A stopped component: no stream, no running recorder, and the state
    [IDLE], or [WAITING_FOR_START] once a flush that was pending at the
    stop has completed. *)
Definition stopped (c : Component) : Prop :=
  stream c = None
  /\ streamRef c = None
  /\ is_recording (mediaRecorderRef c) = false
  /\ (stateRef c = IDLE \/ stateRef c = WAITING_FOR_START).

Lemma stopped_after_stop (c : Component) : stopped (fst (step c EvStopSession)).
Proof.
  unfold stopped.
  destruct c as [s rs la er rl m st mr ch [d|] sr sp], mr as [[|]|], s as [s|];
    vm_compute; repeat split; now left.
Qed.

Lemma stopped_step (c : Component) (ev : Event) :
  stopped c -> restarts ev = false -> stopped (fst (step c ev)).
Proof.
  unfold stopped. intros (H1 & H2 & H3 & H4) Hev.
  destruct c as [s rs la er rl m st mr ch t sr sp]. cbn in H1, H2, H3, H4. subst s sr.
  destruct mr as [[|]|]; try discriminate H3;
    destruct H4; subst st;
    destruct ev as [[ms| |]| |env|env result|err|data|env|m'];
    try discriminate Hev; try destruct env; try destruct result;
    split_handler; repeat split; auto.
Qed.

Lemma stopped_run (evs : list Event) :
  forall c, stopped c -> forallb (fun ev => negb (restarts ev)) evs = true ->
            stopped (fst (run c evs)).
Proof.
  induction evs as [|ev evs IH]; intros c Hc Hall.
  - exact Hc.
  - cbn [forallb] in Hall. apply andb_true_iff in Hall as [Hev Hall].
    cbn [run fst snd]. apply IH; [|exact Hall].
    apply stopped_step; [exact Hc|]. now apply negb_true_iff.
Qed.

Lemma stopped_result (c : Component) (env : Env) (result : AnalysisResult) :
  stopped c ->
  stateRef (fst (step c (EvRemoteResolved env result))) = stateRef c
  /\ recorderState (fst (step c (EvRemoteResolved env result))) = recorderState c
  /\ streamRef (fst (step c (EvRemoteResolved env result))) = None
  /\ mediaRecorderRef (fst (step c (EvRemoteResolved env result))) = mediaRecorderRef c
  /\ chunksRef (fst (step c (EvRemoteResolved env result))) = chunksRef c
  /\ stopping (fst (step c (EvRemoteResolved env result))) = stopping c
  /\ quiet (snd (step c (EvRemoteResolved env result))).
Proof.
  unfold stopped, quiet. intros (H1 & H2 & H3 & H4).
  destruct c as [s rs la er rl m st mr ch t sr sp]. cbn in H1, H2, H3, H4. subst s sr.
  destruct mr as [[|]|]; try discriminate H3;
    destruct H4; subst st; destruct env, result;
    split_handler; repeat split.
Qed.

(** A session that was stopped while its remote call was in flight and
    restarted before the call returned. *)
Definition restarted_session : Component :=
  fst (run (initial GEMINI)
           [EvStartCapture (Granted live); EvTimer page; EvStopSession;
            EvStartCapture (Granted live)]).

(** C7, as the code behaves at a concrete session: the one remote call
    is made before the stop, none after it; the capture is restarted
    before the call returns, and its negative result is then applied to
    the new session: a recorder is started and the state becomes
    [RECORDING]. *)
Lemma stale_result_applied_after_restart :
  classifications
    (snd (run (initial GEMINI) [EvStartCapture (Granted live); EvTimer page])) = 1
  /\ classifications
       (snd (run (fst (run (initial GEMINI)
                           [EvStartCapture (Granted live); EvTimer page]))
                 [EvStopSession; EvStartCapture (Granted live)])) = 0
  /\ stateRef (fst (run (initial GEMINI)
                        [EvStartCapture (Granted live); EvTimer page; EvStopSession]))
     = IDLE
  /\ stateRef restarted_session = MONITORING
  /\ stateRef (fst (step restarted_session (EvRemoteResolved page playing)))
     = RECORDING
  /\ mediaRecorderRef (fst (step restarted_session (EvRemoteResolved page playing)))
     = Some recording
  /\ opened (snd (step restarted_session (EvRemoteResolved page playing))) = 1.
Proof. repeat split. Qed.

(** C7, amended.  After [stopSession] the state is [IDLE]; whatever
    events follow, as long as none attaches a new stream, a
    classification result that arrives then changes no state, starts and
    stops no recorder, touches no chunk and no pending flush and emits
    no record: the component is in [IDLE], or in [WAITING_FOR_START]
    without a stream, where the stream check of [startMediaRecorder]
    keeps the buffer closed.  The timer the result leaves behind fires
    into the stream guard and does nothing at all. *)
Theorem stale_result_discarded_unless_restarted
  (c : Component) (between : list Event) (env env' : Env) (result : AnalysisResult) :
  forallb (fun ev => negb (restarts ev)) between = true ->
  let before := fst (run (fst (step c EvStopSession)) between) in
  let r := step before (EvRemoteResolved env result) in
  stateRef (fst (step c EvStopSession)) = IDLE
  /\ (stateRef before = IDLE \/ stateRef before = WAITING_FOR_START)
  /\ stateRef (fst r) = stateRef before
  /\ recorderState (fst r) = recorderState before
  /\ streamRef (fst r) = None
  /\ mediaRecorderRef (fst r) = mediaRecorderRef before
  /\ chunksRef (fst r) = chunksRef before
  /\ stopping (fst r) = stopping before
  /\ quiet (snd r)
  /\ step (fst r) (EvTimer env') = (fst r, []).
Proof.
  intros Hbetween before r.
  assert (Hidle : stateRef (fst (step c EvStopSession)) = IDLE).
  { destruct c as [s rs la er rl m st mr ch [d|] sr sp], mr as [[|]|], s as [s|];
      reflexivity. }
  assert (Hbefore : stopped before).
  { apply stopped_run; [apply stopped_after_stop|exact Hbetween]. }
  destruct (stopped_result env result Hbefore) as (R1 & R2 & R3 & R4 & R5 & R6 & R7).
  destruct Hbefore as (_ & _ & _ & Hstate).
  split; [exact Hidle|]. split; [exact Hstate|].
  do 7 (split; [assumption|]).
  apply dead_stream_timer. subst r. now rewrite R3.
Qed.

Lemma stale_result_discarded_unless_restarted_witness :
  forallb (fun ev => negb (restarts ev))
          [EvTimer page; EvStartCapture NotAllowedError; EvSetMode LOCAL] = true
  /\ stateRef (fst (step (fst (run (fst (step recording_session EvStopSession))
                                   [EvTimer page; EvStartCapture NotAllowedError;
                                    EvSetMode LOCAL]))
                         (EvRemoteResolved page playing)))
     = stateRef (fst (run (fst (step recording_session EvStopSession))
                          [EvTimer page; EvStartCapture NotAllowedError;
                           EvSetMode LOCAL])).
Proof.
  refine (conj eq_refl _).
  exact (proj1 (proj2 (proj2
           (stale_result_discarded_unless_restarted recording_session
              [EvTimer page; EvStartCapture NotAllowedError; EvSetMode LOCAL]
              page page playing eq_refl)))).
Defined.

(** C8, at the code: whatever the mode, [startCapture] sets the first
    tick of a session 1000 ms ahead; in remote mode that is not the 4000
    ms base interval which every later tick of the loop uses. *)
Theorem startCapture_first_delay (c : Component) (mediaStream : MediaStream) :
  timeouts (effects (startCapture (Granted mediaStream)) c) = [1000]
  /\ timeoutRef (after (startCapture (Granted mediaStream)) c) = Some 1000
  /\ interval_of GEMINI = 4000.
Proof.
  unfold after, effects. destruct c as [s rs la er rl [|] st mr ch [d|] sr sp];
    vm_compute; repeat split.
Qed.

(** Timers that fire while the document is hidden. *)
Definition hidden_tick (ev : Event) : bool :=
  match ev with
  | EvTimer env => document_hidden env
  | _ => false
  end.

Lemma hidden_step (c : Component) (ev : Event) :
  hidden_tick ev = true ->
  fst (step c ev)
  = (if stream_live (streamRef c)
     then set_timeoutRef (Some (interval_of (mode c) * 2)) c else c)
  /\ quiet (snd (step c ev))
  /\ timeouts (snd (step c ev))
     = (if stream_live (streamRef c) then [interval_of (mode c) * 2] else []).
Proof.
  intros Hh. destruct ev as [media| |env|env result|err|data|env|m]; try discriminate.
  destruct c, env. cbn in Hh. subst. unfold quiet. cbn.
  destruct (stream_live streamRef0), timeoutRef0; cbn; repeat split.
Qed.

Lemma set_timeoutRef_twice (t u : option Z) (c : Component) :
  set_timeoutRef t (set_timeoutRef u c) = set_timeoutRef t c.
Proof. now destruct c. Qed.

Lemma set_timeoutRef_same (c : Component) : set_timeoutRef (timeoutRef c) c = c.
Proof. now destruct c. Qed.

(** C10.  Timers that fire while the document is hidden sample no frame,
    call no classifier, start and stop no recorder and emit no record;
    over any number of them the component keeps its state, recorder,
    chunks, last analysis and flags, and only the timer handle changes.
    In a live session each such tick sets exactly one timer, at twice the
    mode's interval. *)
Theorem hidden_ticks_only_reschedule (c : Component) (evs : list Event) :
  forallb hidden_tick evs = true ->
  let r := run c evs in
  quiet (snd r)
  /\ set_timeoutRef (timeoutRef c) (fst r) = c
  /\ (stream_live (streamRef c) = true ->
      timeouts (snd r) = map (fun _ => 2 * interval_of (mode c)) evs).
Proof.
  revert c. induction evs as [|ev evs IH]; intros c Hall r; subst r.
  - cbn [run fst snd map]. split; [apply quiet_nil|].
    split; [apply set_timeoutRef_same|reflexivity].
  - cbn [forallb] in Hall. apply andb_true_iff in Hall as [Hev Hall].
    destruct (hidden_step c ev Hev) as (S1 & S2 & S3).
    specialize (IH (fst (step c ev)) Hall). cbv zeta in IH.
    destruct IH as (R1 & R2 & R3).
    assert (Hback : set_timeoutRef (timeoutRef c) (fst (step c ev)) = c).
    { rewrite S1. destruct (stream_live (streamRef c));
        [rewrite set_timeoutRef_twice|]; apply set_timeoutRef_same. }
    cbn [run fst snd map]. split; [now apply quiet_app|]. split.
    + transitivity
        (set_timeoutRef (timeoutRef c)
           (set_timeoutRef (timeoutRef (fst (step c ev)))
              (fst (run (fst (step c ev)) evs)))).
      * now rewrite set_timeoutRef_twice.
      * rewrite R2. exact Hback.
    + intros Hlive. rewrite timeouts_app, S3, Hlive.
      assert (Hsame : streamRef (fst (step c ev)) = streamRef c
                      /\ mode (fst (step c ev)) = mode c).
      { rewrite S1, Hlive. clear. destruct c. split; reflexivity. }
      destruct Hsame as [Hsr Hm].
      rewrite R3 by now rewrite Hsr. rewrite Hm. cbn [app].
      f_equal. lia.
Qed.

Definition hidden_page : Env :=
  mkEnv true true true (Some LocalDetectionProofs.black_ctx)
        "data:image/png;base64,iVBORw0KGgo="%string 1700000000000 "k3v9x2m1q"%string.

Lemma hidden_ticks_only_reschedule_witness :
  forallb hidden_tick [EvTimer hidden_page; EvTimer hidden_page] = true
  /\ stream_live (streamRef recording_session) = true
  /\ timeouts (snd (run recording_session [EvTimer hidden_page; EvTimer hidden_page]))
     = [8000; 8000].
Proof.
  refine (conj eq_refl (conj eq_refl _)).
  exact (proj2 (proj2 (hidden_ticks_only_reschedule recording_session
                         [EvTimer hidden_page; EvTimer hidden_page] eq_refl))
               eq_refl).
Defined.

End RecorderProofs.

(* ================================================================= *)
(** * Further properties of the controller *)

Module RecorderFacts.
Import LocalDetection Recorder RecorderProofs.

(** ** What every reachable component satisfies *)

(** The state shown and the state read by the loop agree, and so do the
    two stream handles; the recorder runs exactly in [RECORDING]; a
    session that monitors, records or flushes has a stream; at most one
    flush is pending, and only in [ANALYZING] or after a stop. *)
Definition consistent (c : Component) : Prop :=
  recorderState c = stateRef c
  /\ stream c = streamRef c
  /\ is_recording (mediaRecorderRef c) = RecorderState_eqb (stateRef c) RECORDING
  /\ (stateRef c = MONITORING \/ stateRef c = RECORDING \/ stateRef c = ANALYZING ->
      is_some (streamRef c) = true)
  /\ (stateRef c = IDLE -> streamRef c = None)
  /\ match stopping c with
     | [] => stateRef c <> ANALYZING
     | [_] => stateRef c = ANALYZING \/ stateRef c = IDLE
     | _ => False
     end.

(** The capture is not restarted while a flush is pending. *)
Definition allowed (c : Component) (ev : Event) : Prop :=
  match ev with
  | EvStartCapture _ => stopping c = []
  | _ => True
  end.

Fixpoint allowed_run (c : Component) (evs : list Event) : Prop :=
  match evs with
  | [] => True
  | ev :: rest => allowed c ev /\ allowed_run (fst (step c ev)) rest
  end.

Lemma consistent_step (c : Component) (ev : Event) :
  consistent c -> allowed c ev -> consistent (fst (step c ev)).
Proof.
  unfold consistent, allowed.
  intros (I1 & I2 & I3 & I4 & I5 & I6) Hallowed.
  destruct c as [s rs la er rl m st mr ch t sr sp]. cbn in I1, I2, I3, I4, I5, I6.
  subst rs s.
  destruct ev as [media| |env|env result|err|data|env|m'];
    try destruct env; try destruct result; cbn in Hallowed; subst;
    destruct st; cbn in I3, I6;
    try (specialize (I4 ltac:(auto))); try (specialize (I5 eq_refl));
    destruct sr as [sr|]; try discriminate;
    destruct mr as [[|]|]; try discriminate;
    try (destruct sp as [|p [|q sp']]); try contradiction;
    try (destruct I6; discriminate); try (now contradiction I6);
    split_handler;
    repeat match goal with
           | |- _ /\ _ => split
           | |- _ -> _ => intro
           | H : _ \/ _ |- _ => destruct H
           end;
    try reflexivity; try discriminate; try contradiction; auto.
Qed.

Lemma consistent_initial (m : DetectionMode) : consistent (initial m).
Proof.
  unfold consistent. cbn. repeat split; try discriminate.
  intros [H|[H|H]]; discriminate.
Qed.

Lemma consistent_run (evs : list Event) :
  forall c, consistent c -> allowed_run c evs -> consistent (fst (run c evs)).
Proof.
  induction evs as [|ev evs IH]; intros c Hc Hall.
  - exact Hc.
  - destruct Hall as [Hev Hrest]. cbn [run fst snd].
    apply IH; [now apply consistent_step|exact Hrest].
Qed.

(** Every component reached from the first render, by any events in any
    order as long as the capture is not restarted while a flush is
    pending, is consistent: shown state and loop state agree, the
    recorder runs exactly in [RECORDING], monitoring and recording
    sessions have a stream, and at most one flush is pending. *)
Theorem reachable_consistent (m : DetectionMode) (evs : list Event) :
  allowed_run (initial m) evs -> consistent (fst (run (initial m) evs)).
Proof.
  intros Hall. apply consistent_run; [apply consistent_initial|exact Hall].
Qed.

Lemma reachable_consistent_witness :
  allowed_run (initial GEMINI)
    [EvStartCapture (Granted live); EvTimer page; EvRemoteResolved page playing;
     EvRemoteResolved page game_over_45; EvStopSession; EvRecorderStopped page]
  /\ consistent
       (fst (run (initial GEMINI)
               [EvStartCapture (Granted live); EvTimer page;
                EvRemoteResolved page playing; EvRemoteResolved page game_over_45;
                EvStopSession; EvRecorderStopped page])).
Proof.
  assert (Hall : allowed_run (initial GEMINI)
            [EvStartCapture (Granted live); EvTimer page; EvRemoteResolved page playing;
             EvRemoteResolved page game_over_45; EvStopSession; EvRecorderStopped page]).
  { cbn. repeat split. }
  exact (conj Hall (reachable_consistent GEMINI _ Hall)).
Defined.

(** ** Stopping *)

(** [stopSession] from any component: the state is [IDLE], stream, last
    analysis and rate-limit flag are cleared, no recorder is left
    running, the recorder is stopped exactly if it was running, and no
    record is emitted; the chunks and a pending flush stay as they were.
    A second stop changes nothing more. *)
Theorem stopSession_aborts (c : Component) :
  let r := step c EvStopSession in
  stateRef (fst r) = IDLE
  /\ recorderState (fst r) = IDLE
  /\ stream (fst r) = None
  /\ streamRef (fst r) = None
  /\ lastAnalysis (fst r) = None
  /\ isRateLimited (fst r) = false
  /\ is_recording (mediaRecorderRef (fst r)) = false
  /\ chunksRef (fst r) = chunksRef c
  /\ stopping (fst r) = stopping c
  /\ closed (snd r) = (if is_recording (mediaRecorderRef c) then 1 else 0)
  /\ opened (snd r) = 0
  /\ records (snd r) = []
  /\ timeouts (snd r) = []
  /\ fst (step (fst r) EvStopSession) = fst r.
Proof.
  intros r. subst r.
  destruct c as [s rs la er rl m st mr ch [d|] sr sp], mr as [[|]|], s as [s|];
    vm_compute; repeat split.
Qed.

(** A stop while a flush is pending does not cancel the flush: when the
    recorder's stop event arrives, the attempt is still logged, with the
    status its score earns, and the stopped component is left in
    [WAITING_FOR_START] without a stream. *)
Theorem stop_during_flush_still_logs
  (c : Component) (env : Env) (score : option Z) (thumbnail : string) :
  stopping c = [(score, thumbnail)] ->
  let r := run c [EvStopSession; EvRecorderStopped env] in
  stateRef (fst r) = WAITING_FOR_START
  /\ streamRef (fst r) = None
  /\ map status (records (snd r)) = [retention score]
  /\ map rec_score (records (snd r)) = [score].
Proof.
  intros Hp r. subst r.
  destruct c as [s rs la er rl m st mr ch [d|] sr sp], env; cbn in Hp; subst sp;
    destruct mr as [[|]|], s as [s|]; vm_compute; repeat split.
Qed.

Lemma stop_during_flush_still_logs_witness :
  stopping flushing_session = [(Some 45, toDataURL page)]
  /\ stateRef (fst (run flushing_session [EvStopSession; EvRecorderStopped page]))
     = WAITING_FOR_START.
Proof.
  refine (conj eq_refl _).
  exact (proj1 (stop_during_flush_still_logs flushing_session page eq_refl)).
Defined.

(** ** The recording buffer *)

(** [startMediaRecorder] does nothing without a stream or while a
    recorder runs, and otherwise starts one recorder on an empty chunk
    list; calling it again right away does nothing. *)
Theorem startMediaRecorder_guarded (c : Component) :
  let c1 := after startMediaRecorder c in
  (if negb (is_some (streamRef c)) || is_recording (mediaRecorderRef c)
   then c1 = c /\ effects startMediaRecorder c = []
   else stateRef c1 = RECORDING /\ mediaRecorderRef c1 = Some recording
        /\ chunksRef c1 = [] /\ opened (effects startMediaRecorder c) = 1)
  /\ after startMediaRecorder c1 = c1
  /\ effects startMediaRecorder c1 = [].
Proof.
  intros c1. subst c1. unfold after, effects.
  destruct c as [s rs la er rl m st mr ch t [sr|] sp], mr as [[|]|];
    vm_compute; repeat split.
Qed.

(** [handleGameOver] with no running recorder has nothing to flush: the
    record is emitted at once, its blob (kept unless the attempt is
    discarded) is empty, no recorder is stopped, and the state is
    [WAITING_FOR_START] without passing through a pending flush. *)
Theorem handleGameOver_without_recorder
  (c : Component) (env : Env) (score : option Z) (thumbnail : string) :
  is_recording (mediaRecorderRef c) = false ->
  stateRef (after (handleGameOver env score thumbnail) c) = WAITING_FOR_START
  /\ stopping (after (handleGameOver env score thumbnail) c) = stopping c
  /\ closed (effects (handleGameOver env score thumbnail) c) = 0
  /\ records (effects (handleGameOver env score thumbnail) c)
     = [mkAttemptRecord (Math_random_id env) (Date_now env) score (retention score)
          (if Status_eqb (retention score) discarded then None else Some [])
          (Some thumbnail)].
Proof.
  intros Hrec. unfold after, effects. destruct c, env. cbn in Hrec. subst.
  cbn. rewrite Hrec. cbn. repeat split.
Qed.

Lemma handleGameOver_without_recorder_witness :
  is_recording (mediaRecorderRef (initial LOCAL)) = false
  /\ stateRef (after (handleGameOver page None "thumb"%string) (initial LOCAL))
     = WAITING_FOR_START.
Proof.
  refine (conj eq_refl _).
  exact (proj1 (handleGameOver_without_recorder (initial LOCAL) page None
                  "thumb"%string eq_refl)).
Defined.

(** ** Timers *)

(** The timers of the page: whether the timer of the last handle is
    still pending, and how many timers of older handles are. *)
Record Timers : Type := mkTimers { older : nat; latest : bool }.

Definition timer_effect (t : Timers) (e : Effect) : Timers :=
  match e with
  | SetTimeout _ => mkTimers (older t + (if latest t then 1 else 0)) true
  | ClearTimeout => mkTimers (older t) false
  | _ => t
  end.

(** An [EvTimer] is the timer of the last handle firing. *)
Definition timer_event (t : Timers) (ev : Event) : Timers :=
  match ev with
  | EvTimer _ => mkTimers (older t) false
  | _ => t
  end.

Fixpoint timers_after (c : Component) (t : Timers) (evs : list Event) : Timers :=
  match evs with
  | [] => t
  | ev :: rest =>
      timers_after (fst (step c ev))
                   (fold_left timer_effect (snd (step c ev)) (timer_event t ev))
                   rest
  end.

Definition timers_ok (c : Component) (t : Timers) : Prop :=
  older t = 0%nat /\ (latest t = true -> is_some (timeoutRef c) = true).

Lemma timers_step (c : Component) (t : Timers) (ev : Event) :
  timers_ok c t ->
  timers_ok (fst (step c ev))
            (fold_left timer_effect (snd (step c ev)) (timer_event t ev)).
Proof.
  unfold timers_ok. intros [Ho Hl]. destruct t as [o l]. cbn in Ho, Hl. subst o.
  destruct c as [s rs la er rl m st mr ch t sr sp].
  cbn [timeoutRef] in Hl.
  destruct ev as [media| |env|env result|err|data|env|m'];
    try destruct env; try destruct result;
    destruct t as [d|], l; try (discriminate (Hl eq_refl)); clear Hl;
    split_handler; split; try reflexivity; intros; try reflexivity;
    try discriminate.
Qed.

Lemma timers_run (evs : list Event) :
  forall c t, timers_ok c t ->
              timers_ok (fst (run c evs)) (timers_after c t evs).
Proof.
  induction evs as [|ev evs IH]; intros c t Hok.
  - exact Hok.
  - cbn [run timers_after fst snd]. apply IH. now apply timers_step.
Qed.

(** At most one timer is ever pending: whenever a handler sets a timer,
    the timer of the previous handle has fired or has just been cleared,
    so no timer of an older handle is left, whatever the events. *)
Theorem single_pending_timer (m : DetectionMode) (evs : list Event) :
  older (timers_after (initial m) (mkTimers 0 false) evs) = 0%nat.
Proof.
  apply (@timers_run evs (initial m) (mkTimers 0 false)).
  split; [reflexivity|discriminate].
Qed.

(** Every delay the tick loop sets is the mode's interval, twice that
    interval, or the remote backoff: 1000 or 2000 ms in local mode, 4000,
    8000 or 10000 ms in remote mode; and a handler sets at most one
    timer, whose delay the handle then carries. *)
Theorem tick_delays (c : Component) (ev : Event) (d : Z) :
  tick ev = true ->
  In d (timeouts (snd (step c ev))) ->
  timeouts (snd (step c ev)) = [d]
  /\ timeoutRef (fst (step c ev)) = Some d
  /\ match mode c with
     | LOCAL => d = 1000 \/ d = 2000
     | GEMINI => d = 4000 \/ d = 8000 \/ d = 10000
     end.
Proof.
  intros Ht Hin. destruct c as [s rs la er rl m st mr ch t sr sp].
  destruct ev as [media| |env|env result|err|data|env|m'];
    try discriminate; try destruct env; try destruct result; try destruct err;
    destruct m; split_handler;
    repeat match goal with
           | H : _ \/ _ |- _ => destruct H
           | H : False |- _ => contradiction
           | H : _ && false = true |- _ => rewrite andb_false_r in H; discriminate
           end; subst; cbn; auto.
Qed.

Lemma tick_delays_witness :
  tick (EvRemoteRejected (mkErr (Some "429 Too Many Requests"%string))) = true
  /\ In 10000 (timeouts
                 (snd (step recording_session
                            (EvRemoteRejected
                               (mkErr (Some "429 Too Many Requests"%string))))))
  /\ timeoutRef (fst (step recording_session
                           (EvRemoteRejected
                              (mkErr (Some "429 Too Many Requests"%string)))))
     = Some 10000.
Proof.
  refine (conj eq_refl (conj (or_introl eq_refl) _)).
  exact (proj1 (proj2 (tick_delays recording_session
                         (EvRemoteRejected (mkErr (Some "429 Too Many Requests"%string)))
                         10000 eq_refl (or_introl eq_refl)))).
Defined.

(** ** A whole attempt *)

(** A tick that brings no positive result: a negative remote result, a
    failure, a chunk, or a timer whose local analysis, if it runs, is
    negative. *)
Definition negative_tick (ev : Event) : bool :=
  match ev with
  | EvRemoteResolved _ result => negb (isGameOver result)
  | EvRemoteRejected _ | EvDataAvailable _ => true
  | EvTimer env =>
      match getContext_2d env with
      | Some ctx => negb (isGameOver (analyzeGameFrameLocally ctx 640 360))
      | None => true
      end
  | _ => false
  end.

Lemma recording_step (c : Component) (ev : Event) :
  stateRef c = RECORDING -> negative_tick ev = true ->
  stateRef (fst (step c ev)) = RECORDING
  /\ mediaRecorderRef (fst (step c ev)) = mediaRecorderRef c
  /\ stopping (fst (step c ev)) = stopping c
  /\ opened (snd (step c ev)) = 0
  /\ closed (snd (step c ev)) = 0
  /\ records (snd (step c ev)) = [].
Proof.
  intros Hs Ht. destruct c. cbn in Hs. subst.
  destruct ev as [media| |env|env result|err|data|env|m']; try discriminate;
    try destruct env; try destruct result; split_handler; repeat split.
Qed.

Lemma recording_run (evs : list Event) :
  forall c, stateRef c = RECORDING -> forallb negative_tick evs = true ->
  stateRef (fst (run c evs)) = RECORDING
  /\ mediaRecorderRef (fst (run c evs)) = mediaRecorderRef c
  /\ stopping (fst (run c evs)) = stopping c
  /\ opened (snd (run c evs)) = 0
  /\ closed (snd (run c evs)) = 0
  /\ records (snd (run c evs)) = [].
Proof.
  induction evs as [|ev evs IH]; intros c Hs Hall.
  - cbn [run fst snd]. repeat split; assumption.
  - cbn [forallb] in Hall. apply andb_true_iff in Hall as [Hev Hall].
    destruct (recording_step c ev Hs Hev) as (S1 & S2 & S3 & S4 & S5 & S6).
    destruct (IH _ S1 Hall) as (R1 & R2 & R3 & R4 & R5 & R6).
    cbn [run fst snd].
    rewrite opened_app, closed_app, records_app, R1, R2, R3, R4, R5, R6, S2, S3, S4,
      S5, S6.
    repeat split.
Qed.

Lemma first_negative (c : Component) (env : Env) (result : AnalysisResult) :
  stateRef c = MONITORING ->
  is_some (streamRef c) = true ->
  is_recording (mediaRecorderRef c) = false ->
  isGameOver result = false ->
  stateRef (fst (step c (EvRemoteResolved env result))) = RECORDING
  /\ mediaRecorderRef (fst (step c (EvRemoteResolved env result))) = Some recording
  /\ stopping (fst (step c (EvRemoteResolved env result))) = stopping c
  /\ opened (snd (step c (EvRemoteResolved env result))) = 1
  /\ closed (snd (step c (EvRemoteResolved env result))) = 0
  /\ records (snd (step c (EvRemoteResolved env result))) = [].
Proof.
  intros Hs Hsr Hmr Hneg. destruct c, env, result. cbn in Hs, Hsr, Hmr, Hneg. subst.
  destruct streamRef0 as [sr|]; [|discriminate].
  destruct mediaRecorderRef0 as [[|]|]; try discriminate;
    split_handler; repeat split.
Qed.

Lemma positive_then_stop
  (c : Component) (env env' : Env) (result : AnalysisResult) :
  stateRef c = RECORDING ->
  mediaRecorderRef c = Some recording ->
  stopping c = [] ->
  isGameOver result = true ->
  let r := run c [EvRemoteResolved env result; EvRecorderStopped env'] in
  stateRef (fst r) = WAITING_FOR_START
  /\ opened (snd r) = 0
  /\ closed (snd r) = 1
  /\ map rec_score (records (snd r)) = [score result]
  /\ map status (records (snd r)) = [retention (score result)].
Proof.
  intros Hs Hmr Hsp Hpos r. subst r.
  destruct c as [s rs la er rl m st mr ch [d|] sr sp], env, env', result;
    cbn in Hs, Hmr, Hsp, Hpos; subst; destruct m; cbn; repeat split.
Qed.

(** From [MONITORING] in a live session: a first negative result, then
    any ticks without a positive result, then a positive result and the
    recorder's stop event.  One recorder was started and one stopped, one
    record was emitted, with the score of the positive result and the
    status that score earns, and the state is [WAITING_FOR_START]. *)
Theorem attempt_lifecycle
  (c : Component) (env0 env env' : Env) (first last : AnalysisResult)
  (between : list Event) :
  stateRef c = MONITORING ->
  is_some (streamRef c) = true ->
  is_recording (mediaRecorderRef c) = false ->
  stopping c = [] ->
  isGameOver first = false ->
  forallb negative_tick between = true ->
  isGameOver last = true ->
  let r := run c (EvRemoteResolved env0 first :: between
                  ++ [EvRemoteResolved env last; EvRecorderStopped env']) in
  stateRef (fst r) = WAITING_FOR_START
  /\ opened (snd r) = 1
  /\ closed (snd r) = 1
  /\ map rec_score (records (snd r)) = [score last]
  /\ map status (records (snd r)) = [retention (score last)].
Proof.
  intros Hs Hsr Hmr Hsp Hfirst Hbetween Hlast r. subst r.
  destruct (first_negative c env0 first Hs Hsr Hmr Hfirst)
    as (A1 & A2 & A3 & A4 & A5 & A6).
  destruct (recording_run between _ A1 Hbetween) as (B1 & B2 & B3 & B4 & B5 & B6).
  rewrite A2 in B2. rewrite A3, Hsp in B3.
  pose proof (positive_then_stop _ env env' last B1 B2 B3 Hlast) as P.
  cbv zeta in P. destruct P as (P1 & P2 & P3 & P4 & P5).
  cbn [run fst snd]. rewrite run_app. cbn [fst snd].
  rewrite !opened_app, !closed_app, !records_app, !map_app.
  rewrite A4, A5, A6, B4, B5, B6, P1, P2, P3, P4, P5.
  repeat split.
Qed.

Definition monitoring_session : Component :=
  fst (run (initial GEMINI) [EvStartCapture (Granted live); EvTimer page]).

Lemma attempt_lifecycle_witness :
  stateRef monitoring_session = MONITORING
  /\ is_some (streamRef monitoring_session) = true
  /\ is_recording (mediaRecorderRef monitoring_session) = false
  /\ stopping monitoring_session = []
  /\ forallb negative_tick [EvDataAvailable ["001"%byte]; EvRemoteResolved page playing] = true
  /\ map status
       (records
          (snd (run monitoring_session
                  (EvRemoteResolved page playing
                   :: [EvDataAvailable ["001"%byte]; EvRemoteResolved page playing]
                   ++ [EvRemoteResolved page game_over_45; EvRecorderStopped page]))))
     = [saved].
Proof.
  refine (conj eq_refl (conj eq_refl (conj eq_refl (conj eq_refl _)))).
  assert (Hneg : forallb negative_tick [EvDataAvailable ["001"%byte]; EvRemoteResolved page playing]
                 = true) by reflexivity.
  refine (conj Hneg _).
  exact (proj2 (proj2 (proj2 (proj2
           (attempt_lifecycle monitoring_session page page page playing game_over_45
              [EvDataAvailable ["001"%byte]; EvRemoteResolved page playing]
              eq_refl eq_refl eq_refl eq_refl eq_refl Hneg eq_refl))))).
Defined.

(** ** Local mode *)

Lemma local_score_none (ctx : CanvasRenderingContext2D) (width height : Z) :
  score (analyzeGameFrameLocally ctx width height) = None.
Proof.
  unfold analyzeGameFrameLocally.
  destruct (getImageData ctx _ 0 scanWidth height); reflexivity.
Qed.

(** A local-mode tick on a visible page, while recording: if the frame
    is classified as the end screen, the attempt is logged at the
    recorder's stop event with no score, status manual-review, the whole
    recorded buffer and the analysed frame as thumbnail; otherwise
    nothing is logged.  Local mode never discards an attempt. *)
Theorem local_attempts_kept_for_review
  (c : Component) (env env' : Env) (ctx : CanvasRenderingContext2D) :
  mode c = LOCAL ->
  stateRef c = RECORDING ->
  mediaRecorderRef c = Some recording ->
  stopping c = [] ->
  stream_live (streamRef c) = true ->
  document_hidden env = false ->
  videoRef_current env = true ->
  canvasRef_current env = true ->
  getContext_2d env = Some ctx ->
  records (snd (run c [EvTimer env; EvRecorderStopped env']))
  = if isGameOver (analyzeGameFrameLocally ctx 640 360)
    then [mkAttemptRecord (Math_random_id env') (Date_now env') None manual_review
            (Some (new_Blob (chunksRef c))) (Some (toDataURL env))]
    else [].
Proof.
  intros Hm Hs Hmr Hsp Hlive Hh Hv Hc Hctx.
  destruct c as [s rs la er rl m st mr ch [d|] sr sp], env as [h v cv g url now rid],
    env' as [h' v' cv' g' url' now' rid'];
    cbn in Hm, Hs, Hmr, Hsp, Hlive, Hh, Hv, Hc, Hctx; subst; cbn; rewrite Hlive; cbn;
    pose proof (local_score_none ctx 640 360) as Hscore;
    destruct (analyzeGameFrameLocally ctx 640 360) as [over sc conf];
    cbn in Hscore; subst sc; destruct over; cbn; try reflexivity;
    destruct (url =? "")%string; reflexivity.
Qed.

(** A page whose canvas cannot be read yet, and a local session that
    started recording on it. *)
Definition unready_page : Env :=
  mkEnv false true true (Some LocalDetectionProofs.failing_ctx)
        "data:image/png;base64,iVBORw0KGgo="%string 1700000000000 "k3v9x2m1q"%string.

Definition local_recording_session : Component :=
  fst (run (initial LOCAL) [EvStartCapture (Granted live); EvTimer unready_page]).

Lemma local_attempts_kept_for_review_witness :
  mode local_recording_session = LOCAL
  /\ stateRef local_recording_session = RECORDING
  /\ mediaRecorderRef local_recording_session = Some recording
  /\ stopping local_recording_session = []
  /\ stream_live (streamRef local_recording_session) = true
  /\ records (snd (run local_recording_session
                       [EvTimer unready_page; EvRecorderStopped unready_page]))
     = [].
Proof.
  refine (conj eq_refl (conj eq_refl (conj eq_refl (conj eq_refl (conj eq_refl _))))).
  exact (local_attempts_kept_for_review local_recording_session unready_page
           unready_page eq_refl eq_refl eq_refl eq_refl eq_refl eq_refl eq_refl eq_refl
           eq_refl).
Defined.

(** ** Quota failures *)

Lemma prefix_spec (p s : string) :
  String.prefix p s = true <-> exists rest, s = (p ++ rest)%string.
Proof.
  revert s. induction p as [|a p IH]; intros s.
  - split; [intros _; now exists s|intros _; now destruct s].
  - destruct s as [|b s]; cbn.
    + split; [discriminate|intros [rest H]; discriminate].
    + destruct (Ascii.ascii_dec a b) as [->|Hne].
      * rewrite IH. split; intros [rest H]; exists rest; [now rewrite H|].
        now injection H.
      * split; [discriminate|]. intros [rest H]. injection H as Hab _. congruence.
Qed.

Lemma includes_empty (needle : string) :
  includes needle "" = String.prefix needle "" || false.
Proof. reflexivity. Qed.

Lemma includes_String (needle : string) (a : ascii) (s : string) :
  includes needle (String a s)
  = String.prefix needle (String a s) || includes needle s.
Proof. reflexivity. Qed.

Lemma includes_spec (needle s : string) :
  includes needle s = true
  <-> exists before rest, s = (before ++ needle ++ rest)%string.
Proof.
  induction s as [|a s IH].
  - rewrite includes_empty, orb_false_r, prefix_spec. split.
    + intros [rest H]. now exists ""%string, rest.
    + intros [before [rest H]]. destruct before as [|b before]; [|discriminate].
      now exists rest.
  - rewrite includes_String, orb_true_iff, prefix_spec, IH. split.
    + intros [[rest H]|[before [rest H]]].
      * now exists ""%string, rest.
      * exists (String a before), rest. cbn. now rewrite H.
    + intros [before [rest H]]. destruct before as [|b before].
      * left. now exists rest.
      * right. injection H as _ H. now exists before, rest.
Qed.

(** The failure is taken for a quota failure exactly when it has a
    message and "429" or "RESOURCE_EXHAUSTED" occurs somewhere in it; a
    failure without a message never is. *)
Theorem isQuotaError_spec (err : Err) :
  isQuotaError err = true
  <-> exists msg before rest,
        message err = Some msg
        /\ (msg = (before ++ "429" ++ rest)%string
            \/ msg = (before ++ "RESOURCE_EXHAUSTED" ++ rest)%string).
Proof.
  unfold isQuotaError, message_includes. destruct err as [[msg|]]; cbn [message].
  - rewrite orb_true_iff, !includes_spec. split.
    + intros [[before [rest H]]|[before [rest H]]]; exists msg, before, rest; auto.
    + intros [msg' [before [rest [[= <-] [H|H]]]]]; [left|right]; now exists before, rest.
  - split; [discriminate|]. intros [msg [before [rest [H _]]]]. discriminate.
Qed.

End RecorderFacts.

(* ================================================================= *)
(** * The history kept by the application *)

Module AppFacts.
Import Recorder.

Lemma fold_cons (l logs : list AttemptRecord) :
  fold_left (fun acc r => App.handleLogEntry r acc) l logs = rev l ++ logs.
Proof.
  revert logs. induction l as [|r l IH]; intros logs; [reflexivity|].
  cbn [fold_left rev]. rewrite IH. unfold App.handleLogEntry.
  now rewrite <- app_assoc.
Qed.

(** The history is the records the controller emitted, newest first, in
    front of what was there; and the records of two runs delivered one
    after the other are those of the runs' effects taken together. *)
Theorem history_newest_first (effs1 effs2 : list Effect) (logs : list AttemptRecord) :
  App.deliver effs1 logs = rev (records effs1) ++ logs
  /\ App.deliver (effs1 ++ effs2) logs = App.deliver effs2 (App.deliver effs1 logs).
Proof.
  unfold App.deliver. split; [apply fold_cons|].
  rewrite RecorderProofs.records_app. apply fold_left_app.
Qed.

End AppFacts.

(* ================================================================= *)
(** * Further properties of the local detector *)

Module LocalDetectionFacts.
Import LocalDetection LocalDetectionProofs.

(** On channel values the binary64 distance test is exact: a pixel
    matches exactly when its squared distance to the target is below
    4900, so a distance of exactly 70 is no match; a pixel with a missing
    channel never matches. *)
Theorem colorMatch_on_bytes (r g b : Z) (target : RGB) :
  0 <= r <= 255 -> 0 <= g <= 255 -> 0 <= b <= 255 ->
  0 <= r_ target <= 255 -> 0 <= g_ target <= 255 -> 0 <= b_ target <= 255 ->
  colorMatch (Some r) (Some g) (Some b) target
  = ((r - r_ target) ^ 2 + (g - g_ target) ^ 2 + (b - b_ target) ^ 2 <? 4900)
  /\ colorMatch None (Some g) (Some b) target = false
  /\ colorMatch (Some r) None (Some b) target = false
  /\ colorMatch (Some r) (Some g) None target = false.
Proof.
  intros Hr Hg Hb Htr Htg Htb. split; [|now repeat split].
  unfold colorMatch.
  pose proof (square_bound Hr Htr). pose proof (square_bound Hg Htg).
  pose proof (square_bound Hb Htb).
  change 4900 with (70 ^ 2). apply distance_exact. lia.
Qed.

Lemma colorMatch_on_bytes_witness :
  colorMatch (Some 136) (Some 133) (Some 244) TARGET_BLUE = false
  /\ colorMatch (Some 135) (Some 133) (Some 244) TARGET_BLUE = true.
Proof.
  split.
  - rewrite (proj1 (colorMatch_on_bytes (r := 136) (g := 133) (b := 244) TARGET_BLUE
                      ltac:(lia) ltac:(lia) ltac:(lia)
                      ltac:(cbn; lia) ltac:(cbn; lia) ltac:(cbn; lia))).
    reflexivity.
  - rewrite (proj1 (colorMatch_on_bytes (r := 135) (g := 133) (b := 244) TARGET_BLUE
                      ltac:(lia) ltac:(lia) ltac:(lia)
                      ltac:(cbn; lia) ltac:(cbn; lia) ltac:(cbn; lia))).
    reflexivity.
Defined.

Lemma for_range_ext {S : Type} (n : Z) (f g : Z -> S -> S) :
  (forall i s, 0 <= i < n -> f i s = g i s) ->
  forall s, for_range n f s = for_range n g s.
Proof.
  unfold for_range. intros H.
  assert (Hl : forall l, (forall i, In i l -> 0 <= i < n) ->
                         forall s, fold_left (fun acc i => f i acc) l s
                                   = fold_left (fun acc i => g i acc) l s).
  { induction l as [|i l IH]; intros Hin s; [reflexivity|].
    cbn [fold_left]. rewrite H by (apply Hin; now left).
    apply IH. intros j Hj. apply Hin. now right. }
  apply Hl. intros i Hi. now apply in_range.
Qed.

Lemma scanPixel_ext (frameData frameData' : ImageData) (y x : Z) (row : Tally) :
  (forall i, i mod 4 <> 3 -> at_index frameData i = at_index frameData' i) ->
  scanPixel frameData y x row = scanPixel frameData' y x row.
Proof.
  intros H. unfold scanPixel.
  assert (H0 : ((y * scanWidth + x) * 4) mod 4 = 0) by (apply Z.mod_mul; lia).
  assert (H1 : ((y * scanWidth + x) * 4 + 1) mod 4 = 1).
  { rewrite Z.add_comm, Z.mod_add by lia. reflexivity. }
  assert (H2 : ((y * scanWidth + x) * 4 + 2) mod 4 = 2).
  { rewrite Z.add_comm, Z.mod_add by lia. reflexivity. }
  rewrite !(H ((y * scanWidth + x) * 4)), !(H ((y * scanWidth + x) * 4 + 1)),
    !(H ((y * scanWidth + x) * 4 + 2)) by lia.
  reflexivity.
Qed.

(** Whatever the frame height, the verdict reads the red, green and blue
    bytes only: two buffers that differ in alpha bytes alone are
    classified alike. *)
Theorem alpha_ignored (frameData frameData' : ImageData) (height : Z) :
  (forall i, i mod 4 <> 3 -> at_index frameData i = at_index frameData' i) ->
  classifyFrame frameData height = classifyFrame frameData' height.
Proof.
  intros H. unfold classifyFrame.
  assert (Hrows : for_range height (scanRow frameData height) (mkTally 0 0 0)
                  = for_range height (scanRow frameData' height) (mkTally 0 0 0)).
  { apply for_range_ext. intros y rows _. unfold scanRow.
    assert (Hrow : for_range scanWidth (scanPixel frameData y) (mkTally 0 0 0)
                   = for_range scanWidth (scanPixel frameData' y) (mkTally 0 0 0)).
    { apply for_range_ext. intros x row _. now apply scanPixel_ext. }
    now rewrite Hrow. }
  now rewrite Hrows.
Qed.

Lemma alpha_ignored_witness :
  classifyFrame ["066"; "133"; "244"; "255"]%byte 1
  = classifyFrame ["066"; "133"; "244"; "000"]%byte 1.
Proof.
  apply alpha_ignored. intros i Hi. unfold at_index.
  destruct (i <? 0) eqn:Hneg; [reflexivity|]. apply Z.ltb_ge in Hneg.
  destruct (Z.to_nat i) as [|[|[|[|n]]]] eqn:Hn; try reflexivity.
  exfalso. apply Hi. replace i with 3 by lia. reflexivity.
Defined.

(** The tests of the detector at the sampled size, in pixels: a row
    matches a colour with at least 9 of its 20 strip pixels; ribbon rows
    count above row 144, button rows in rows 109 to 251, URL-box rows in
    rows 181 to 305; and each element needs at least 8 such rows. *)
Theorem thresholds_at_360p (ctx : CanvasRenderingContext2D) (frameData : ImageData) :
  getImageData ctx 310 0 20 360 = Returns frameData ->
  let matching p y := 9 <=? count (fun x => p (spec_pixel frameData y x)) (range 20) in
  let blueRows :=
    count (fun y => (y <? 144) && matching (spec_near TARGET_BLUE) y) (range 360) in
  let greenRows :=
    count (fun y => (109 <=? y) && (y <? 252) && matching (spec_near TARGET_GREEN) y)
          (range 360) in
  let whiteRows :=
    count (fun y => (181 <=? y) && (y <? 306) && matching spec_white y) (range 360) in
  isGameOver (analyzeGameFrameLocally ctx 640 360)
  = (8 <=? blueRows) && ((8 <=? greenRows) || (8 <=? whiteRows)).
Proof.
  intros Hget matching blueRows greenRows whiteRows.
  unfold analyzeGameFrameLocally.
  change (Z.max 0 (640 / 2 - scanWidth / 2)) with 310. change scanWidth with 20.
  rewrite Hget, classifyFrame_exact. cbn [isGameOver].
  unfold spec_isGameOver, spec_hasRibbon, spec_hasButton, spec_hasUrlBox, spec_exceeds.
  assert (Hrow : forall p y, spec_row_matches p frameData y = matching p y).
  { intros p y. unfold spec_row_matches, matching.
    destruct (Z.ltb_spec (40 * 20) (100 * count (fun x => p (spec_pixel frameData y x))
                                            (range 20)));
      destruct (Z.leb_spec 9 (count (fun x => p (spec_pixel frameData y x)) (range 20)));
      try reflexivity; lia. }
  assert (Hb : count (spec_blue_row frameData 360) (range 360) = blueRows).
  { apply count_ext_in. intros y _. unfold spec_blue_row. rewrite Hrow. f_equal.
    destruct (Z.ltb_spec (100 * y) (40 * 360)), (Z.ltb_spec y 144);
      try reflexivity; lia. }
  assert (Hg : count (spec_green_row frameData 360) (range 360) = greenRows).
  { apply count_ext_in. intros y _. unfold spec_green_row. rewrite Hrow. do 2 f_equal.
    - destruct (Z.ltb_spec (30 * 360) (100 * y)), (Z.leb_spec 109 y);
        try reflexivity; lia.
    - destruct (Z.ltb_spec (100 * y) (70 * 360)), (Z.ltb_spec y 252);
        try reflexivity; lia. }
  assert (Hw : count (spec_white_row frameData 360) (range 360) = whiteRows).
  { apply count_ext_in. intros y _. unfold spec_white_row. rewrite Hrow. do 2 f_equal.
    - destruct (Z.ltb_spec (50 * 360) (100 * y)), (Z.leb_spec 181 y);
        try reflexivity; lia.
    - destruct (Z.ltb_spec (100 * y) (85 * 360)), (Z.ltb_spec y 306);
        try reflexivity; lia. }
  rewrite Hb, Hg, Hw.
  assert (Hex : forall n, (2 * 360 <? 100 * n) = (8 <=? n)).
  { intros n. destruct (Z.ltb_spec (2 * 360) (100 * n)), (Z.leb_spec 8 n);
      try reflexivity; lia. }
  now rewrite !Hex.
Qed.

Lemma thresholds_at_360p_witness :
  getImageData black_ctx 310 0 20 360 = Returns (repeat "000"%byte (Z.to_nat 28800))
  /\ isGameOver (analyzeGameFrameLocally black_ctx 640 360)
     = (8 <=? count (fun y => (y <? 144)
                              && (9 <=? count (fun x => spec_near TARGET_BLUE
                                                 (spec_pixel (repeat "000"%byte
                                                                (Z.to_nat 28800)) y x))
                                              (range 20)))
                      (range 360))
       && ((8 <=? count (fun y => (109 <=? y) && (y <? 252)
                                  && (9 <=? count (fun x => spec_near TARGET_GREEN
                                                     (spec_pixel (repeat "000"%byte
                                                                    (Z.to_nat 28800)) y x))
                                                  (range 20)))
                         (range 360))
           || (8 <=? count (fun y => (181 <=? y) && (y <? 306)
                                     && (9 <=? count (fun x => spec_white
                                                        (spec_pixel (repeat "000"%byte
                                                                       (Z.to_nat 28800)) y x))
                                                     (range 20)))
                            (range 360))).
Proof.
  split; [reflexivity|].
  apply (thresholds_at_360p black_ctx (frameData := repeat "000"%byte (Z.to_nat 28800))).
  reflexivity.
Defined.

End LocalDetectionFacts.

(* ================================================================= *)
(** * The image handed to the remote service *)

Module GeminiServiceFacts.
Import GeminiService.

Lemma split_without (sep : ascii) (s : string) :
  without sep s -> split sep s = [s].
Proof.
  induction s as [|a s IH]; intros H; [reflexivity|].
  destruct H as [Hne Hs]. cbn [split].
  destruct (Ascii.eqb_spec a sep) as [->|_]; [contradiction|].
  now rewrite IH by assumption.
Qed.

Lemma split_header (sep : ascii) (header rest : string) :
  without sep header ->
  split sep (header ++ String sep rest) = header :: split sep rest.
Proof.
  induction header as [|a header IH]; intros H.
  - cbn [append split]. now rewrite Ascii.eqb_refl.
  - destruct H as [Hne Hh]. cbn [append split].
    destruct (Ascii.eqb_spec a sep) as [->|_]; [contradiction|].
    now rewrite IH by assumption.
Qed.

(** A data URL loses its header: what follows the comma is sent, when
    header and payload are free of commas and the payload is not empty.
    A string without comma, such as bare base64, is sent as it is. *)
Theorem cleanBase64_strips_header (header payload : string) :
  without "," header -> without "," payload ->
  cleanBase64 header = header
  /\ (payload <> EmptyString ->
      cleanBase64 (header ++ String "," payload) = payload).
Proof.
  intros Hh Hp. unfold cleanBase64. split.
  - now rewrite split_without by assumption.
  - intros Hne. rewrite split_header, split_without by assumption. cbn.
    destruct (String.eqb_spec payload ""); [contradiction|reflexivity].
Qed.

Lemma cleanBase64_strips_header_witness :
  without "," "data:image/png;base64" /\ without "," "iVBORw0KGgo="
  /\ cleanBase64 "data:image/png;base64,iVBORw0KGgo=" = "iVBORw0KGgo="%string.
Proof.
  assert (Hh : without "," "data:image/png;base64") by (cbn; repeat split; discriminate).
  assert (Hp : without "," "iVBORw0KGgo=") by (cbn; repeat split; discriminate).
  refine (conj Hh (conj Hp _)).
  apply (proj2 (cleanBase64_strips_header "data:image/png;base64" "iVBORw0KGgo=" Hh Hp)).
  discriminate.
Defined.

End GeminiServiceFacts.
